(** * ARQV30 Enhanced: client-side session and progress tracking

    A shallow embedding of the session manager (session gate), of
    [getSessionId] (main.js, upload.js) and of the session/progress logic of
    analysis.js, with the properties of the specification checked against it.

    Conventions of the embedding:
    - a JavaScript value is a [jsval]; numbers are the integers the
      JSON replies carry (percentages, step numbers);
    - a plain object or a [Map] with string keys is a [gmap string _];
      reading a missing property yields [JUndefined];
    - the browser (localStorage, sessionStorage, the timer table, the log
      of [fetch] calls and what reaches the page or the console) is
      explicit state;
    - an [async] function receives the replies of its [fetch] calls as
      arguments and runs to completion. *)

From stdpp Require Import gmap strings list fin_maps pretty.
From Stdlib Require Import ZArith Lia.

Open Scope Z_scope.

#[local] Set Warnings "-register-all".

(** ** JavaScript values *)

Inductive jsval :=
| JUndefined
| JNull
| JBool (b : bool)
| JNum (n : Z)
| JStr (s : string)
| JArr (l : list jsval)
| JObj (o : gmap string jsval).

(** An object literal or a parsed JSON object. *)
Abbreviation obj := (gmap string jsval).

(** ToBoolean: what [if (v)], [!v], [v || d] and [a && b] look at. *)
Definition truthy (v : jsval) : bool :=
  match v with
  | JUndefined | JNull => false
  | JBool b => b
  | JNum n => negb (n =? 0)
  | JStr s => negb (String.eqb s "")
  | JArr _ | JObj _ => true
  end.

(** [o.k] on an object. *)
Definition prop (k : string) (o : obj) : jsval := default JUndefined (o !! k).

(** [v || d] *)
Definition js_or (v d : jsval) : jsval := if truthy v then v else d.

(** String conversion, as in a template literal. *)
Fixpoint to_string (v : jsval) : string :=
  match v with
  | JUndefined => "undefined"
  | JNull => "null"
  | JBool b => if b then "true" else "false"
  | JNum n => pretty n
  | JStr s => s
  | JArr l =>
      (fix join (l : list jsval) : string :=
         match l with
         | [] => ""
         | x :: l' =>
             let sx := match x with JUndefined | JNull => "" | _ => to_string x end in
             match l' with [] => sx | _ => sx +:+ "," +:+ join l' end
         end) l
  | JObj _ => "[object Object]"
  end.

(** [input.value = v]: [null] gives the empty text. *)
Definition input_value (v : jsval) : string :=
  match v with JNull => "" | _ => to_string v end.

(** [v === n] for a number literal [n]. *)
Definition is_num (n : Z) (v : jsval) : bool :=
  match v with JNum m => m =? n | _ => false end.

(** [v === s] for a string literal [s]. *)
Definition is_str (s : string) (v : jsval) : bool :=
  match v with JStr t => String.eqb t s | _ => false end.

(** [arr.includes(n)] for a number literal [n] (SameValueZero). *)
Definition includes (n : Z) (arr : list jsval) : bool := existsb (is_num n) arr.

(** ** Session manager: the step gate *)

Module StepGate.

(** [canContinueFromStep(step, completedSteps)] *)
Definition canContinueFromStep (step : jsval) (completedSteps : list jsval) : bool :=
  if is_num 1 step then true
  else if is_num 2 step then includes 1 completedSteps
  else if is_num 3 step then includes 1 completedSteps && includes 2 completedSteps
  else false.

End StepGate.

(** ** main.js / upload.js: the browser-session identifier *)

Module SessionId.

Definition storage_key : string := "arqv30_session_id".

(** [getSessionId()] over [sessionStorage]; [now] is [Date.now()] and
    [rnd] is [Math.random().toString(36).substr(2, 9)].
    [getItem] yields [null] for a missing key, and [!sessionId] also holds
    for the empty string. *)
Definition getSessionId (now : Z) (rnd : string) (sessionStorage : gmap string string)
  : string * gmap string string :=
  match sessionStorage !! storage_key with
  | Some sessionId =>
      if String.eqb sessionId "" then
        let fresh := "session_" +:+ pretty now +:+ "_" +:+ rnd in
        (fresh, <[storage_key := fresh]> sessionStorage)
      else (sessionId, sessionStorage)
  | None =>
      let fresh := "session_" +:+ pretty now +:+ "_" +:+ rnd in
      (fresh, <[storage_key := fresh]> sessionStorage)
  end.

End SessionId.

(** ** analysis.js *)

Module Analysis.

Inductive severity := Info | Success | Warning | Error.

Inductive http_method := GET | POST | DELETE.

(** Everything the code does that is visible from outside, in order:
    [fetch] calls, notifications, console lines and calls of the
    rendering helpers (whose bodies only touch the DOM), with the
    arguments of the call. A message built as [`text${detail}`] or
    ['text' + detail] keeps its two parts. *)
Inductive event :=
| Fetch (m : http_method) (url : string)
| Notification (text : string) (detail : option jsval) (sev : severity)
| Alert (text : string) (detail : option jsval) (sev : severity)
| ConsoleLog (text : string)
| ConsoleWarn (text : string)
| ConsoleError (text : string)
| UpdateProgress (percentage message totalSteps estimatedTime : jsval)
| UpdateProgressUI (percentage message : jsval)
| ShowProgress (show : bool)
| UpdateSessionControls (status : string)
| ShowResults (results : jsval)
| UpdateSessionsList
| RenderSessionsList
| RenderEmptySessionsList.

(** What a [fetch] followed by [response.json()] gives back: a rejected
    request, a body that does not parse, or the JSON object every endpoint
    of the backend answers with, next to [response.ok]. *)
Inductive reply :=
| FetchRejects (message : string)
| BodyRejects (ok : bool) (message : string)
| Json (ok : bool) (body : obj).

(** The callbacks the code registers with [setInterval] / [setTimeout]
    (the timeouts that only take a notification off the page are left out). *)
Inductive timer_kind :=
| ProgressTick   (* the arrow function of startProgressMonitoring *)
| AutoSaveTick   (* the arrow function of startAutoSave; its body is not modelled *)
| PollTimeout.   (* setTimeout(pollProgress, 3000) *)

#[global] Instance timer_kind_eq_dec : EqDecision timer_kind.
Proof. solve_decision. Defined.

(** Module-level variables of analysis.js. *)
Record globals := {
  currentAnalysisId : option string;
  isAnalysisRunning : bool;
  savedSessions : gmap string obj;
  autoSaveInterval : option positive;
}.

(** Fields of the ModernAnalysisSystem instance. [sessions] is a [Map]
    whose keys come from JSON, kept in insertion order. *)
Record instance := {
  currentSessionId : option string;
  progressInterval : option positive;
  sessions : list (jsval * jsval);
  isPaused : bool;
}.

(** The browser. The three localStorage keys the code uses are kept
    decoded; [ls_formData] is [Some None] when the stored text does not
    parse. [form] holds the named inputs of #analysisForm with their
    current text; the page is taken to have the inputs segmento, produto,
    publico, preco and objetivo_receita there, named as their ids. The
    page facts say whether the page has a [.progress-text] element and
    whether a global [logger] exists. Timer handles are positive integers. *)
Record browser := {
  ls_currentSessionId : option string;
  ls_analyses : option (gmap string obj);
  ls_formData : option (option obj);
  form : gmap string string;
  has_progress_text : bool;
  has_logger : bool;
  timers : gmap positive timer_kind;
  next_handle : positive;
  trace : list event;
}.

Record state := { glob : globals; sys : instance; env : browser }.

Definition on_glob (f : globals → globals) (st : state) : state :=
  {| glob := f (glob st); sys := sys st; env := env st |}.
Definition on_sys (f : instance → instance) (st : state) : state :=
  {| glob := glob st; sys := f (sys st); env := env st |}.
Definition on_env (f : browser → browser) (st : state) : state :=
  {| glob := glob st; sys := sys st; env := f (env st) |}.

Definition set_currentAnalysisId (v : option string) : state → state :=
  on_glob (λ g, {| currentAnalysisId := v; isAnalysisRunning := isAnalysisRunning g;
                   savedSessions := savedSessions g; autoSaveInterval := autoSaveInterval g |}).
Definition set_isAnalysisRunning (v : bool) : state → state :=
  on_glob (λ g, {| currentAnalysisId := currentAnalysisId g; isAnalysisRunning := v;
                   savedSessions := savedSessions g; autoSaveInterval := autoSaveInterval g |}).
Definition set_savedSessions (v : gmap string obj) : state → state :=
  on_glob (λ g, {| currentAnalysisId := currentAnalysisId g;
                   isAnalysisRunning := isAnalysisRunning g;
                   savedSessions := v; autoSaveInterval := autoSaveInterval g |}).
Definition set_autoSaveInterval (v : option positive) : state → state :=
  on_glob (λ g, {| currentAnalysisId := currentAnalysisId g;
                   isAnalysisRunning := isAnalysisRunning g;
                   savedSessions := savedSessions g; autoSaveInterval := v |}).

Definition set_currentSessionId (v : option string) : state → state :=
  on_sys (λ s, {| currentSessionId := v; progressInterval := progressInterval s;
                  sessions := sessions s; isPaused := isPaused s |}).
Definition set_progressInterval (v : option positive) : state → state :=
  on_sys (λ s, {| currentSessionId := currentSessionId s; progressInterval := v;
                  sessions := sessions s; isPaused := isPaused s |}).
Definition set_sessions (v : list (jsval * jsval)) : state → state :=
  on_sys (λ s, {| currentSessionId := currentSessionId s; progressInterval := progressInterval s;
                  sessions := v; isPaused := isPaused s |}).

Definition set_storage (cur : option string) (an : option (gmap string obj)) : state → state :=
  on_env (λ b, {| ls_currentSessionId := cur; ls_analyses := an; ls_formData := ls_formData b;
                  form := form b; has_progress_text := has_progress_text b;
                  has_logger := has_logger b; timers := timers b;
                  next_handle := next_handle b; trace := trace b |}).
Definition set_form (v : gmap string string) : state → state :=
  on_env (λ b, {| ls_currentSessionId := ls_currentSessionId b; ls_analyses := ls_analyses b;
                  ls_formData := ls_formData b; form := v;
                  has_progress_text := has_progress_text b; has_logger := has_logger b;
                  timers := timers b; next_handle := next_handle b; trace := trace b |}).
Definition set_timers (v : gmap positive timer_kind) (n : positive) : state → state :=
  on_env (λ b, {| ls_currentSessionId := ls_currentSessionId b; ls_analyses := ls_analyses b;
                  ls_formData := ls_formData b; form := form b;
                  has_progress_text := has_progress_text b; has_logger := has_logger b;
                  timers := v; next_handle := n; trace := trace b |}).
Definition emit (e : event) : state → state :=
  on_env (λ b, {| ls_currentSessionId := ls_currentSessionId b; ls_analyses := ls_analyses b;
                  ls_formData := ls_formData b; form := form b;
                  has_progress_text := has_progress_text b; has_logger := has_logger b;
                  timers := timers b; next_handle := next_handle b;
                  trace := trace b ++ [e] |}).

(** Statements in sequence: [st ▷ f ▷ g] runs [f] and then [g]. *)
Notation "st ▷ f" := (f st) (at level 45, left associativity, only parsing).

(** *** Browser primitives *)

Definition setInterval (k : timer_kind) (st : state) : positive * state :=
  let h := next_handle (env st) in
  (h, set_timers (<[h := k]> (timers (env st))) (h + 1)%positive st).

(** [setTimeout] allocates from the same table; the entry goes when it fires. *)
Definition setTimeout (k : timer_kind) (st : state) : state :=
  snd (setInterval k st).

Definition clearInterval (h : positive) (st : state) : state :=
  set_timers (delete h (timers (env st))) (next_handle (env st)) st.

Definition setItem_currentSessionId (v : string) (st : state) : state :=
  set_storage (Some v) (ls_analyses (env st)) st.
Definition removeItem_currentSessionId (st : state) : state :=
  set_storage None (ls_analyses (env st)) st.

(** A session id read as a condition: [null] and the empty string are falsy. *)
Definition id_truthy (i : option string) : bool :=
  match i with Some s => negb (String.eqb s "") | None => false end.

(** A session id inside a template literal. *)
Definition id_text (i : option string) : string := default "null" i.

(** [JSON.stringify] leaves out the properties whose value is [undefined]. *)
Definition is_undefined (v : jsval) : bool :=
  match v with JUndefined => true | _ => false end.
Definition json_object (o : obj) : obj := filter (λ kv, is_undefined kv.2 = false) o.

(** [v.k] on any value: a TypeError ([None]) on [undefined] and [null]. *)
Definition member (k : string) (v : jsval) : option jsval :=
  match v with
  | JUndefined | JNull => None
  | JObj o => Some (prop k o)
  | _ => Some JUndefined
  end.

(** [Map.prototype.set] / [delete] compare keys with SameValueZero; an
    object or array that comes out of a parsed reply is a fresh reference,
    equal to no key already stored. *)
Definition same_value_zero (a b : jsval) : bool :=
  match a, b with
  | JUndefined, JUndefined | JNull, JNull => true
  | JBool x, JBool y => Bool.eqb x y
  | JNum x, JNum y => x =? y
  | JStr x, JStr y => String.eqb x y
  | _, _ => false
  end.

Fixpoint map_set (k v : jsval) (m : list (jsval * jsval)) : list (jsval * jsval) :=
  match m with
  | [] => [(k, v)]
  | (k', v') :: m' =>
      if same_value_zero k' k then (k', v) :: m' else (k', v') :: map_set k v m'
  end.

Fixpoint map_delete (k : jsval) (m : list (jsval * jsval)) : list (jsval * jsval) :=
  match m with
  | [] => []
  | (k', v') :: m' => if same_value_zero k' k then m' else (k', v') :: map_delete k m'
  end.

(** *** class AnalysisPersistence *)

(** [saveSessions()] *)
Definition saveSessions (st : state) : state :=
  st ▷ set_storage (ls_currentSessionId (env st))
         (Some (json_object <$> savedSessions (glob st)))
     ▷ emit (ConsoleLog "✅ Sessões salvas localmente").

(** [saveSession(sessionId, data)]; [now] is [new Date().toISOString()]. *)
Definition saveSession (now : string) (sessionId : string) (data : obj) (st : state) : state :=
  st ▷ set_savedSessions
         (<[sessionId := <["progress" := js_or (prop "progress" data) (JNum 0)]>
                           (<["lastSaved" := JStr now]> data)]>
            (savedSessions (glob st)))
     ▷ saveSessions
     ▷ emit UpdateSessionsList.

(** [getSession(sessionId)] *)
Definition getSession (sessionId : string) (st : state) : option obj :=
  savedSessions (glob st) !! sessionId.

(** [deleteSession(sessionId)] of the persistence object. *)
Definition persistence_deleteSession (sessionId : string) (st : state) : state :=
  st ▷ set_savedSessions (delete sessionId (savedSessions (glob st)))
     ▷ saveSessions
     ▷ emit UpdateSessionsList.

(** *** class ModernAnalysisSystem *)

Definition showNotification (text : string) (detail : option jsval) (sev : severity)
  : state → state := emit (Notification text detail sev).

(** [startProgressMonitoring()]: arms the repeating tick. *)
Definition startProgressMonitoring (st : state) : state :=
  if id_truthy (currentSessionId (sys st)) then
    let '(h, st') := setInterval ProgressTick st in
    set_progressInterval (Some h) st'
  else st.

(** [stopProgressMonitoring()] *)
Definition stopProgressMonitoring (st : state) : state :=
  match progressInterval (sys st) with
  | Some h => st ▷ clearInterval h ▷ set_progressInterval None
  | None => st
  end.

(** The [catch] block of [loadSavedSessions]. *)
Definition loadSavedSessions_catch (st : state) : state :=
  st ▷ emit (ConsoleError "Erro ao carregar sessões:")
     ▷ showNotification "Erro ao carregar sessões salvas" None Warning
     ▷ emit RenderEmptySessionsList.

(** [result.sessions.forEach(session => this.sessions.set(session.session_id, session))];
    the flag is [false] when an element makes [session.session_id] throw. *)
Fixpoint forEach_set (l : list jsval) (m : list (jsval * jsval))
  : list (jsval * jsval) * bool :=
  match l with
  | [] => (m, true)
  | session :: l' =>
      match member "session_id" session with
      | Some k => forEach_set l' (map_set k session m)
      | None => (m, false)
      end
  end.

(** [loadSavedSessions()] once the body [result] is parsed. *)
Definition loadSavedSessions_result (result : obj) (st : state) : state :=
  if truthy (prop "success" result) && truthy (prop "sessions" result) then
    let st1 := set_sessions [] st in
    match prop "sessions" result with
    | JArr l =>
        let '(m, finished) := forEach_set l [] in
        let st2 := set_sessions m st1 in
        if finished then
          let st3 := emit RenderSessionsList st2 in
          if has_logger (env st3) then emit (ConsoleLog "✅ sessões carregadas") st3
          else loadSavedSessions_catch st3
        else loadSavedSessions_catch st2
    | _ => loadSavedSessions_catch st1
    end
  else
    st ▷ emit (ConsoleWarn "Nenhuma sessão encontrada ou formato inválido")
       ▷ emit RenderEmptySessionsList.

(** [loadSavedSessions()]: [r1] answers the main endpoint, [r2] the fallback. *)
Definition loadSavedSessions (r1 r2 : reply) (st : state) : state :=
  let st1 := emit (Fetch GET "/api/progress/sessions") st in
  match r1 with
  | Json true result => loadSavedSessions_result result st1
  | FetchRejects _ | BodyRejects true _ => loadSavedSessions_catch st1
  | BodyRejects false _ | Json false _ =>
      let st2 := emit (Fetch GET "/api/user/sessions") st1 in
      match r2 with
      | Json true result => loadSavedSessions_result result st2
      | _ => loadSavedSessions_catch st2
      end
  end.

(** The callback of [startProgressMonitoring]: the request it sends. *)
Definition tick_fetch (st : state) : state :=
  emit (Fetch GET ("/api/progress/" +:+ id_text (currentSessionId (sys st)))) st.

(** The callback of [startProgressMonitoring]: what it does with the reply
    ([r1], [r2] answer the reload of the session list on completion). *)
Definition tick_settle (r r1 r2 : reply) (st : state) : state :=
  match r with
  | Json _ data =>
      if truthy (prop "success" data) then
        let st1 := emit (UpdateProgress (prop "percentage" data) (prop "current_step" data)
                                        (prop "total_steps" data)
                                        (prop "estimated_time" data)) st in
        if truthy (prop "completed" data) then
          st1 ▷ stopProgressMonitoring
              ▷ showNotification "Análise concluída com sucesso!" None Success
              ▷ emit (ShowProgress false)
              ▷ emit (UpdateSessionControls "completed")
              ▷ removeItem_currentSessionId
              ▷ loadSavedSessions r1 r2
        else st1
      else if truthy (prop "error" data) then
        st ▷ stopProgressMonitoring
           ▷ showNotification "Erro: " (Some (prop "error" data)) Error
           ▷ emit (ShowProgress false)
      else st
  | FetchRejects _ | BodyRejects _ _ => emit (ConsoleError "Erro no monitoramento:") st
  end.

(** One firing of timer [h]: nothing runs unless [h] is a live progress timer. *)
Definition progress_timer_fires (h : positive) (r r1 r2 : reply) (st : state) : option state :=
  match timers (env st) !! h with
  | Some ProgressTick => Some (st ▷ tick_fetch ▷ tick_settle r r1 r2)
  | _ => None
  end.

(** [continueSession(sessionId)]. In a notification built from a caught
    error, the detail is the argument of [new Error(..)] or the text of
    the rejection. *)
Definition continueSession (sessionId : string) (r : reply) (st : state) : state :=
  let st1 := st ▷ emit (ShowProgress true)
                ▷ emit (UpdateProgress (JNum 0) (JStr "Continuando sessão...")
                                        JUndefined JUndefined)
                ▷ emit (Fetch POST ("/api/sessions/" +:+ sessionId +:+ "/continue")) in
  let failed (detail : jsval) :=
    st1 ▷ showNotification "Erro ao continuar: " (Some detail) Error
        ▷ emit (ShowProgress false) in
  match r with
  | Json _ result =>
      if truthy (prop "success" result) then
        st1 ▷ set_currentSessionId (Some sessionId)
            ▷ setItem_currentSessionId sessionId
            ▷ showNotification "Sessão continuada com sucesso" None Success
            ▷ startProgressMonitoring
      else failed (prop "error" result)
  | FetchRejects m | BodyRejects _ m => failed (JStr m)
  end.

(** [restoreFormData()] *)
Definition restoreFormData (st : state) : state :=
  match ls_formData (env st) with
  | Some (Some data) =>
      set_form (map_imap (λ name old, Some (from_option input_value old (data !! name)))
                         (form (env st))) st
  | Some None => emit (ConsoleError "Erro ao restaurar dados do formulário:") st
  | None => st
  end.

(** [checkSessionStatus(sessionId)] *)
Definition checkSessionStatus (sessionId : string) (r : reply) (st : state) : state :=
  let st1 := emit (Fetch GET ("/api/sessions/" +:+ sessionId +:+ "/status")) st in
  let failed :=
    st1 ▷ emit (ConsoleError "Erro ao verificar status da sessão:")
        ▷ removeItem_currentSessionId in
  match r with
  | Json _ result =>
      if truthy (prop "success" result) then
        match member "status" (prop "session" result) with
        | Some status =>
            if is_str "running" status then
              st1 ▷ emit (ShowProgress true)
                  ▷ startProgressMonitoring
                  ▷ emit (UpdateSessionControls "running")
                  ▷ showNotification "Sessão anterior restaurada e em execução" None Info
            else if is_str "paused" status then
              st1 ▷ emit (UpdateSessionControls "paused")
                  ▷ showNotification "Sessão anterior encontrada (pausada)" None Info
            else if is_str "completed" status then
              st1 ▷ removeItem_currentSessionId
                  ▷ showNotification "Última sessão foi concluída" None Success
            else if is_str "error" status then
              st1 ▷ showNotification "Última sessão teve erro" None Warning
            else st1
        | None => failed
        end
      else st1
  | FetchRejects _ | BodyRejects _ _ => failed
  end.

(** [restoreLastSession()] *)
Definition restoreLastSession (r : reply) (st : state) : state :=
  let lastSessionId := ls_currentSessionId (env st) in
  (if id_truthy lastSessionId then
     st ▷ set_currentSessionId lastSessionId
        ▷ checkSessionStatus (id_text lastSessionId) r
   else st)
  ▷ restoreFormData.

(** [deleteSession(sessionId)] of the system; [confirmed] is the answer
    to the [confirm] dialog. *)
Definition deleteSession (sessionId : string) (confirmed : bool) (r : reply) (st : state)
  : state :=
  if confirmed then
    let st1 := emit (Fetch DELETE ("/api/sessions/" +:+ sessionId)) st in
    match r with
    | Json _ result =>
        if truthy (prop "success" result) then
          st1 ▷ showNotification "Sessão excluída com sucesso" None Success
              ▷ set_sessions (map_delete (JStr sessionId) (sessions (sys st1)))
              ▷ emit RenderSessionsList
        else showNotification "Erro ao excluir: " (Some (prop "error" result)) Error st1
    | FetchRejects m | BodyRejects _ m =>
        showNotification "Erro ao excluir: " (Some (JStr m)) Error st1
    end
  else st.

(** *** Global functions of analysis.js *)

(** [getFormData()] *)
Definition getFormData (st : state) : obj := JStr <$> form (env st).

Definition showAlert (text : string) (detail : option jsval) (sev : severity)
  : state → state := emit (Alert text detail sev).

(** [updateProgressUI] calls [percentage.toFixed(1)] when the page has a
    [.progress-text] element: a TypeError unless [percentage] is a number. *)
Definition toFixed_throws (percentage : jsval) (st : state) : bool :=
  has_progress_text (env st) &&
  match percentage with JNum _ => false | _ => true end.

Definition toFixed_message : string := "percentage.toFixed is not a function".

(** [startAutoSave()] *)
Definition startAutoSave (st : state) : state :=
  let st1 := match autoSaveInterval (glob st) with
             | Some h => clearInterval h st
             | None => st
             end in
  let '(h, st2) := setInterval AutoSaveTick st1 in
  set_autoSaveInterval (Some h) st2.

(** [stopAutoSave()] *)
Definition stopAutoSave (st : state) : state :=
  match autoSaveInterval (glob st) with
  | Some h => st ▷ clearInterval h ▷ set_autoSaveInterval None
  | None => st
  end.

(** The [catch] block of [pollProgress]. *)
Definition pollProgress_catch (detail : jsval) (st : state) : state :=
  st ▷ emit (ConsoleError "Erro no polling de progresso:")
     ▷ showAlert "Erro ao monitorar progresso: " (Some detail) Error
     ▷ stopAutoSave
     ▷ set_isAnalysisRunning false.

(** The snapshot [pollProgress] hands to [saveSession]. *)
Definition poll_snapshot (formData data : obj) : obj :=
  <["results" := prop "results" data]>
    (<["current_step" := prop "current_step" data]>
       (<["status" := JStr (if truthy (prop "completed" data) then "completed" else "running")]>
          (<["progress" := prop "percentage" data]> formData))).

(** [pollProgress()] with the reply [r] to its request. *)
Definition pollProgress (now : string) (r : reply) (st : state) : state :=
  match currentAnalysisId (glob st) with
  | Some sid =>
      if String.eqb sid "" then st
      else
        let st1 := emit (Fetch GET ("/api/progress/" +:+ sid)) st in
        match r with
        | Json _ data =>
            if truthy (prop "success" data) then
              let st2 := emit (UpdateProgressUI (prop "percentage" data)
                                                (prop "current_step" data)) st1 in
              if toFixed_throws (prop "percentage" data) st2 then
                pollProgress_catch (JStr toFixed_message) st2
              else
                let st3 := saveSession now sid (poll_snapshot (getFormData st2) data) st2 in
                if truthy (prop "completed" data) then
                  st3 ▷ emit (ShowResults (prop "results" data))
                      ▷ stopAutoSave
                      ▷ set_isAnalysisRunning false
                      ▷ set_currentAnalysisId None
                else if isAnalysisRunning (glob st3) then setTimeout PollTimeout st3
                else st3
            else
              pollProgress_catch (js_or (prop "error" data) (JStr "Erro ao obter progresso")) st1
        | FetchRejects m | BodyRejects _ m => pollProgress_catch (JStr m) st1
        end
  | None => st
  end.

(** The timeout armed by [pollProgress] fires: the entry leaves the timer
    table and [pollProgress] runs. *)
Definition poll_timeout_fires (h : positive) (now : string) (r : reply) (st : state)
  : option state :=
  match timers (env st) !! h with
  | Some PollTimeout => Some (st ▷ clearInterval h ▷ pollProgress now r)
  | _ => None
  end.

(** [checkAnalysisStatus(sessionId)]; [r_poll] answers the request of the
    [pollProgress()] it starts when the session is running. *)
Definition checkAnalysisStatus (now : string) (sessionId : string) (r r_poll : reply)
  (st : state) : state :=
  let st1 := emit (Fetch GET ("/api/analysis_status/" +:+ sessionId)) st in
  let failed (detail : jsval) (st : state) :=
    st ▷ emit (ConsoleError "Erro ao verificar status:")
       ▷ showAlert "Erro ao verificar status da análise: " (Some detail) Error in
  match r with
  | Json _ data =>
      if truthy (prop "success" data) then
        let running := is_str "running" (prop "status" data) in
        let st2 := st1 ▷ set_currentAnalysisId (Some sessionId)
                       ▷ set_isAnalysisRunning running in
        if running then
          let percentage := js_or (prop "progress" data) (JNum 0) in
          let st3 := emit (UpdateProgressUI percentage
                             (js_or (prop "current_step" data) (JStr "Continuando..."))) st2 in
          if toFixed_throws percentage st3 then failed (JStr toFixed_message) st3
          else st3 ▷ startAutoSave ▷ pollProgress now r_poll
        else if is_str "completed" (prop "status" data) then
          st2 ▷ emit (ShowResults (prop "results" data)) ▷ stopAutoSave
        else
          saveSession now sessionId
            (<["results" := prop "results" data]>
               (<["status" := prop "status" data]>
                  (<["progress" := js_or (prop "progress" data) (JNum 0)]> (getFormData st2))))
            st2
      else failed (js_or (prop "error" data) (JStr "Não foi possível verificar o status")) st1
  | FetchRejects m | BodyRejects _ m => failed (JStr m) st1
  end.

(** [document.getElementById(id).value = sessionData[id] || ''] *)
Definition fill_input (id : string) (sessionData : obj) (st : state) : state :=
  set_form (<[id := input_value (js_or (prop id sessionData) (JStr ""))]> (form (env st))) st.

(** [continueAnalysis(sessionId)] *)
Definition continueAnalysis (now : string) (sessionId : string) (r r_poll : reply)
  (st : state) : state :=
  let st0 := emit (ConsoleLog "🔄 Continuando análise: ") st in
  match getSession sessionId st0 with
  | None => showAlert "Sessão não encontrada" None Error st0
  | Some sessionData =>
      let st1 := st0 ▷ fill_input "segmento" sessionData
                     ▷ fill_input "produto" sessionData
                     ▷ fill_input "publico" sessionData
                     ▷ fill_input "preco" sessionData
                     ▷ fill_input "objetivo_receita" sessionData
                     ▷ set_currentAnalysisId (Some sessionId) in
      if is_num 100 (prop "progress" sessionData) && truthy (prop "results" sessionData) then
        emit (ShowResults (prop "results" sessionData)) st1
      else checkAnalysisStatus now sessionId r r_poll st1
  end.

(** [deleteAnalysis(sessionId)]; [confirmed] is the answer to [confirm]. *)
Definition deleteAnalysis (sessionId : string) (confirmed : bool) (st : state) : state :=
  if confirmed then
    st ▷ persistence_deleteSession sessionId
       ▷ showAlert "Análise excluída com sucesso" None Success
  else st.

(** Runs of the progress timer [h], one firing per reply of [rs]; a
    failing tick does not reload the session list, so its reply stands in
    for those of the reload. *)
Fixpoint progress_timer_fires_each (h : positive) (rs : list reply) (st : state)
  : option state :=
  match rs with
  | [] => Some st
  | r :: rs' => st' ← progress_timer_fires h r r r st; progress_timer_fires_each h rs' st'
  end.

(** *** Reading a reply and a trace *)

(** The [fetch] or the parsing of its body failed. *)
Definition rejects (r : reply) : bool :=
  match r with Json _ _ => false | _ => true end.

(** The reply parsed and its [success] is truthy. *)
Definition succeeds (r : reply) : bool :=
  match r with Json _ body => truthy (prop "success" body) | _ => false end.

(** The events a run added to the trace. *)
Definition new_events (st st' : state) : list event :=
  drop (length (trace (env st))) (trace (env st')).

Definition is_fetch (e : event) : bool :=
  match e with Fetch _ _ => true | _ => false end.

(** The network calls among some events. *)
Definition network_calls (es : list event) : list event := List.filter is_fetch es.

Definition is_notification (e : event) : bool :=
  match e with Notification _ _ _ => true | _ => false end.

Definition notifications (es : list event) : list event := List.filter is_notification es.

Definition is_success (e : event) : bool :=
  match e with Notification _ _ Success => true | _ => false end.

(** The success notifications among some events. *)
Definition success_notifications (es : list event) : list event := List.filter is_success es.

(** The live timers that run the progress tick. *)
Definition progress_timers (st : state) : gmap positive timer_kind :=
  filter (λ kv, kv.2 = ProgressTick) (timers (env st)).

End Analysis.

(** ** Scenarios

    Concrete pages and replies on which the operations are run. *)

Module Scenario.
Import Analysis.

Notation "st ▷ f" := (f st) (at level 45, left associativity, only parsing).

(** A freshly loaded page: nothing stored, empty form inputs, no timer. *)
Definition fresh_page : state :=
  {| glob := {| currentAnalysisId := None; isAnalysisRunning := false;
                savedSessions := ∅; autoSaveInterval := None |};
     sys := {| currentSessionId := None; progressInterval := None;
               sessions := []; isPaused := false |};
     env := {| ls_currentSessionId := None; ls_analyses := None; ls_formData := None;
               form := list_to_map [("segmento", ""); ("produto", ""); ("publico", "");
                                    ("preco", ""); ("objetivo_receita", "")];
               has_progress_text := true; has_logger := true;
               timers := ∅; next_handle := 1%positive; trace := [] |} |}.

(** The page as it loads when localStorage still names [sid] as the
    current session. *)
Definition page_with_marker (sid : string) : state :=
  set_storage (Some sid) None fresh_page.

(** [{success: true, session: {status}}] *)
Definition status_reply (status : string) : reply :=
  Json true {[ "success" := JBool true;
               "session" := JObj {[ "status" := JStr status ]} ]}.

(** [{success: true}] *)
Definition success_reply : reply := Json true {[ "success" := JBool true ]}.

(** [{success: false, error}] *)
Definition failure_reply (error : string) : reply :=
  Json true {[ "success" := JBool false; "error" := JStr error ]}.

(** [{success: true, percentage: 100, completed: true, results}] *)
Definition completed_reply : reply :=
  Json true {[ "success" := JBool true; "percentage" := JNum 100;
               "completed" := JBool true;
               "results" := JObj {[ "report" := JStr "ok" ]} ]}.

(** [{success: true, sessions: []}] *)
Definition empty_list_reply : reply :=
  Json true {[ "success" := JBool true; "sessions" := JArr [] ]}.

(** A page polling session "s1": the snapshot cached at submission holds
    the segment "fitness"; the user has since typed "pets" in the form. *)
Definition polling_page : state :=
  fresh_page
  ▷ set_savedSessions {[ "s1" := {[ "segmento" := JStr "fitness"; "produto" := JStr "app";
                                    "status" := JStr "running"; "progress" := JNum 0;
                                    "lastSaved" := JStr "2025-01-01T10:00:00.000Z" ]} ]}
  ▷ set_currentAnalysisId (Some "s1")
  ▷ set_isAnalysisRunning true
  ▷ set_form (<["segmento" := "pets"]> (<["produto" := "app"]> (form (env fresh_page))))
  ▷ setTimeout PollTimeout.

(** [{success: true, percentage: 40, current_step: "step2", completed: false,
      completed_steps: [1]}] *)
Definition progress_data : obj :=
  {[ "success" := JBool true; "percentage" := JNum 40; "current_step" := JStr "step2";
     "completed" := JBool false; "completed_steps" := JArr [JNum 1] ]}.

(** A page whose local store holds the finished session "s1" with its results. *)
Definition history_page : state :=
  fresh_page
  ▷ set_savedSessions {[ "s1" := {[ "segmento" := JStr "fitness"; "produto" := JStr "app";
                                    "status" := JStr "completed"; "progress" := JNum 100;
                                    "results" := JObj {[ "report" := JStr "ok" ]};
                                    "lastSaved" := JStr "2025-01-01T10:00:00.000Z" ]} ]}.

End Scenario.

(** ** analysis.js: the remaining operations on sessions, storage and files *)

Module AnalysisExt.
Import Analysis.

Notation "st ▷ f" := (f st) (at level 45, left associativity, only parsing).

Definition set_isPaused (v : bool) : state → state :=
  on_sys (λ s, {| currentSessionId := currentSessionId s;
                  progressInterval := progressInterval s;
                  sessions := sessions s; isPaused := v |}).

Definition set_formData (v : option (option obj)) : state → state :=
  on_env (λ b, {| ls_currentSessionId := ls_currentSessionId b; ls_analyses := ls_analyses b;
                  ls_formData := v; form := form b;
                  has_progress_text := has_progress_text b; has_logger := has_logger b;
                  timers := timers b; next_handle := next_handle b; trace := trace b |}).

(** Every live timer handle was handed out before [next_handle]. *)
Definition handles_fresh (st : state) : Prop :=
  ∀ h, is_Some (timers (env st) !! h) → (h < next_handle (env st))%positive.

(** [Map.prototype.get] *)
Fixpoint map_get (k : jsval) (m : list (jsval * jsval)) : option jsval :=
  match m with
  | [] => None
  | (k', v') :: m' => if same_value_zero k' k then Some v' else map_get k m'
  end.

(** *** class AnalysisPersistence, reading back *)


(** *** class ModernAnalysisSystem *)

(** [pauseSession()] *)
Definition pauseSession (r : reply) (st : state) : state :=
  if id_truthy (currentSessionId (sys st)) then
    let st1 := emit (Fetch POST ("/api/sessions/" +:+ id_text (currentSessionId (sys st))
                                 +:+ "/pause")) st in
    match r with
    | Json _ result =>
        if truthy (prop "success" result) then
          st1 ▷ set_isPaused true
              ▷ stopProgressMonitoring
              ▷ showNotification "Sessão pausada com sucesso" None Success
              ▷ emit (UpdateSessionControls "paused")
        else showNotification "Erro ao pausar: " (Some (prop "error" result)) Error st1
    | FetchRejects m | BodyRejects _ m =>
        showNotification "Erro ao pausar: " (Some (JStr m)) Error st1
    end
  else showNotification "Nenhuma sessão ativa para pausar" None Warning st.

(** [resumeSession()] *)
Definition resumeSession (r : reply) (st : state) : state :=
  if id_truthy (currentSessionId (sys st)) then
    let st1 := emit (Fetch POST ("/api/sessions/" +:+ id_text (currentSessionId (sys st))
                                 +:+ "/resume")) st in
    match r with
    | Json _ result =>
        if truthy (prop "success" result) then
          st1 ▷ set_isPaused false
              ▷ startProgressMonitoring
              ▷ showNotification "Sessão resumida com sucesso" None Success
              ▷ emit (UpdateSessionControls "running")
        else showNotification "Erro ao resumir: " (Some (prop "error" result)) Error st1
    | FetchRejects m | BodyRejects _ m =>
        showNotification "Erro ao resumir: " (Some (JStr m)) Error st1
    end
  else showNotification "Nenhuma sessão para resumir" None Warning st.

(** [saveSession()] of the system; [r1], [r2] answer the reload of the list. *)
Definition system_saveSession (r r1 r2 : reply) (st : state) : state :=
  if id_truthy (currentSessionId (sys st)) then
    let st1 := emit (Fetch POST ("/api/sessions/" +:+ id_text (currentSessionId (sys st))
                                 +:+ "/save")) st in
    match r with
    | Json _ result =>
        if truthy (prop "success" result) then
          st1 ▷ showNotification "Sessão salva com sucesso" None Success
              ▷ loadSavedSessions r1 r2
        else showNotification "Erro ao salvar: " (Some (prop "error" result)) Error st1
    | FetchRejects m | BodyRejects _ m =>
        showNotification "Erro ao salvar: " (Some (JStr m)) Error st1
    end
  else showNotification "Nenhuma sessão para salvar" None Warning st.

(** The [catch] block of [clearAllSessions]. *)
Definition clearAllSessions_catch (detail : jsval) (st : state) : state :=
  st ▷ emit (ConsoleError "Erro ao limpar sessões:")
     ▷ showNotification "Erro ao limpar sessões: " (Some detail) Error.

(** [clearAllSessions()] once the body [result] is parsed. *)
Definition clearAllSessions_result (result : obj) (st : state) : state :=
  if truthy (prop "success" result) then
    st ▷ showNotification "Todas as sessões foram excluídas" None Success
       ▷ set_sessions []
       ▷ emit RenderEmptySessionsList
       ▷ set_storage None None
       ▷ set_formData None
  else clearAllSessions_catch (js_or (prop "error" result) (JStr "Erro desconhecido")) st.

(** [clearAllSessions()]: [confirmed] is the answer to [confirm], [r1]
    answers the cleanup endpoint, [r2] the fallback, and [status2] is the
    HTTP status of the fallback response. *)
Definition clearAllSessions (confirmed : bool) (r1 r2 : reply) (status2 : Z) (st : state)
  : state :=
  if confirmed then
    let st1 := emit (Fetch POST "/api/progress/cleanup") st in
    match r1 with
    | Json true result => clearAllSessions_result result st1
    | FetchRejects m | BodyRejects true m => clearAllSessions_catch (JStr m) st1
    | BodyRejects false _ | Json false _ =>
        let st2 := emit (Fetch POST "/api/user/clear_sessions") st1 in
        match r2 with
        | Json true result => clearAllSessions_result result st2
        | FetchRejects m | BodyRejects true m => clearAllSessions_catch (JStr m) st2
        | BodyRejects false _ | Json false _ =>
            clearAllSessions_catch
              (JStr ("Endpoint não encontrado (" +:+ pretty status2 +:+ ")")) st2
        end
    end
  else st.

(** Whether the cleanup is reported done: by the first reply when its
    response is ok, by the fallback's otherwise. *)
Definition cleanup_succeeds (r1 r2 : reply) : bool :=
  match r1 with
  | Json true result => truthy (prop "success" result)
  | FetchRejects _ | BodyRejects true _ => false
  | BodyRejects false _ | Json false _ =>
      match r2 with
      | Json true result => truthy (prop "success" result)
      | _ => false
      end
  end.

(** [autoSaveForm()] *)
Definition autoSaveForm (st : state) : state :=
  st ▷ set_formData (Some (Some (getFormData st)))
     ▷ showNotification "Formulário salvo automaticamente" None Info.

(** A [File] as the code reads it. *)
Record file := { file_name : string; file_size : Z; file_type : string }.

Definition allowedTypes : list string :=
  ["application/pdf"; "text/plain"; "application/msword";
   "application/vnd.openxmlformats-officedocument.wordprocessingml.document"].

Definition maxSize : Z := 10 * 1024 * 1024.

(** [validateFile(file)] *)
Definition validateFile (f : file) (st : state) : bool * state :=
  if maxSize <? file_size f then
    (false, showNotification "Arquivo muito grande. Máximo 10MB." None Warning st)
  else if negb (existsb (String.eqb (file_type f)) allowedTypes) then
    (false, showNotification "Tipo de arquivo não suportado." None Warning st)
  else (true, st).

(** The files [validateFile] lets through. *)
Definition file_ok (f : file) : bool :=
  (file_size f <=? maxSize) && existsb (String.eqb (file_type f)) allowedTypes.

(** [uploadFile(file)] up to its request, which leaves when it is called. *)
Definition uploadFile_request (f : file) (st : state) : state :=
  emit (Fetch POST "/api/upload") st.

(** [handleFiles(files)] *)
Fixpoint handleFiles (files : list file) (st : state) : state :=
  match files with
  | [] => st
  | f :: files' =>
      let '(valid, st1) := validateFile f st in
      handleFiles files' (if valid then uploadFile_request f st1 else st1)
  end.

(** [uploadFile(file)] from the reply on. The class has no
    [addFileToList] method, so the call after the success notification
    raises a TypeError, which the [catch] block reports. *)
Definition uploadFile_settle (f : file) (r : reply) (st : state) : state :=
  match r with
  | Json _ result =>
      if truthy (prop "success" result) then
        st ▷ showNotification ("Arquivo " +:+ file_name f +:+ " enviado com sucesso!")
               None Success
           ▷ showNotification "Erro no upload: "
               (Some (JStr "this.addFileToList is not a function")) Error
      else showNotification "Erro no upload: " (Some (prop "error" result)) Error st
  | FetchRejects m | BodyRejects _ m =>
      showNotification "Erro no upload: " (Some (JStr m)) Error st
  end.

(** The buttons [getSessionActions] offers, in the order it pushes them. *)
Inductive session_action := ContinueAction | ViewResultsAction | DeleteAction.

(** [getSessionActions(session, sessionId)], by [session.status]. *)
Definition getSessionActions (status : jsval) : list session_action :=
  (if is_str "paused" status || is_str "error" status || is_str "saved" status
   then [ContinueAction] else [])
  ++ (if is_str "completed" status then [ViewResultsAction] else [])
  ++ [DeleteAction].

(** The condition under which a tick of [pollProgress] schedules the next
    one: the reply reports success and no completion, showing the
    percentage did not throw, and the analysis counts as running. *)
Definition poll_continues (r : reply) (st : state) : bool :=
  match r with
  | Json _ data =>
      truthy (prop "success" data)
      && negb (toFixed_throws (prop "percentage" data) st)
      && negb (truthy (prop "completed" data))
      && isAnalysisRunning (glob st)
  | _ => false
  end.

(** The keys of a [Map] are pairwise different. *)
Fixpoint keys_distinct (m : list (jsval * jsval)) : Prop :=
  match m with
  | [] => True
  | (k, _) :: m' => map_get k m' = None ∧ keys_distinct m'
  end.

(** A value that can be a key of a [Map] next to others of its kind
    without the reference of an object mattering. *)
Definition primitive (v : jsval) : bool :=
  match v with JArr _ | JObj _ => false | _ => true end.

(** The session summaries of a list whose [session_id] is the string [id]. *)
Definition has_session_id (id : string) (session : jsval) : bool :=
  match session with
  | JObj o => is_str id (prop "session_id" o)
  | _ => false
  end.

Definition is_object (v : jsval) : bool :=
  match v with JObj _ => true | _ => false end.

End AnalysisExt.

(** ** Session manager: selecting a session and a step *)

Module SessionManager.
Import StepGate.

Notation "st ▷ f" := (f st) (at level 45, left associativity, only parsing).

(** Where the message of a caught error comes from: the argument of
    [new Error(..)], the text of a rejected request or body, or an
    exception of the runtime (a property read on [undefined], a call of
    what is no function, a selector that does not parse). *)
Inductive cause :=
| ErrorArg (v : jsval)
| Rejection (message : string)
| Thrown.

(** What reaches the network, the user and the page. Every message goes to
    [window.showNotification] when the page defines it and to the console
    otherwise: a [Notice] stands for either. The notice of a selected
    session shows the first characters of the id it carries. *)
Inductive event :=
| Fetch (m : Analysis.http_method) (url : string)
| Notice (text : string) (about : option jsval) (sev : Analysis.severity)
| ErrorNotice (text : string) (c : cause)
| ConsoleError (text : string)
| DisplaySavedSessions (sessions : list jsval)
| UpdateSelectedSessionInfo (sessionData : jsval)
| ClearSelectedSessionInfo
| MarkSelected (sessionId : string).

(** What [updateStepSelector] writes on a step button. *)
Inductive step_label := Completed | Available | Locked.

Record button := { disabled : bool; label : option step_label }.

(** The variables of the script and the part of the page it reads back:
    the step buttons, by the number in their [data-step] (they are the
    elements of class [step-btn]), and the continue button. The page is
    taken to have the containers and the continue button the script
    writes to without checking. *)
Record state := {
  selectedSessionId : option string;
  selectedStep : option Z;
  availableSessions : jsval;
  currentSessionId : option string;
  step_buttons : gmap Z button;
  continueBtn_disabled : bool;
  trace : list event;
}.

Definition set_selection (sid : option string) (cur : option string) (st : state) : state :=
  {| selectedSessionId := sid; selectedStep := selectedStep st;
     availableSessions := availableSessions st; currentSessionId := cur;
     step_buttons := step_buttons st; continueBtn_disabled := continueBtn_disabled st;
     trace := trace st |}.
Definition set_selectedStep (v : option Z) (st : state) : state :=
  {| selectedSessionId := selectedSessionId st; selectedStep := v;
     availableSessions := availableSessions st; currentSessionId := currentSessionId st;
     step_buttons := step_buttons st; continueBtn_disabled := continueBtn_disabled st;
     trace := trace st |}.
Definition set_availableSessions (v : jsval) (st : state) : state :=
  {| selectedSessionId := selectedSessionId st; selectedStep := selectedStep st;
     availableSessions := v; currentSessionId := currentSessionId st;
     step_buttons := step_buttons st; continueBtn_disabled := continueBtn_disabled st;
     trace := trace st |}.
Definition set_step_buttons (v : gmap Z button) (st : state) : state :=
  {| selectedSessionId := selectedSessionId st; selectedStep := selectedStep st;
     availableSessions := availableSessions st; currentSessionId := currentSessionId st;
     step_buttons := v; continueBtn_disabled := continueBtn_disabled st;
     trace := trace st |}.
Definition set_continueBtn_disabled (v : bool) (st : state) : state :=
  {| selectedSessionId := selectedSessionId st; selectedStep := selectedStep st;
     availableSessions := availableSessions st; currentSessionId := currentSessionId st;
     step_buttons := step_buttons st; continueBtn_disabled := v;
     trace := trace st |}.
Definition emit (e : event) (st : state) : state :=
  {| selectedSessionId := selectedSessionId st; selectedStep := selectedStep st;
     availableSessions := availableSessions st; currentSessionId := currentSessionId st;
     step_buttons := step_buttons st; continueBtn_disabled := continueBtn_disabled st;
     trace := trace st ++ [e] |}.

(** [sessionData.metadata?.completed_steps || []]; [None] when reading
    [sessionData.metadata] throws. *)
Definition completed_steps_of (sessionData : jsval) : option jsval :=
  match Analysis.member "metadata" sessionData with
  | Some metadata =>
      Some (js_or (default JUndefined (Analysis.member "completed_steps" metadata))
                  (JArr []))
  | None => None
  end.

(** One round of the loop of [updateStepSelector]. *)
Definition update_button (completedSteps : list jsval) (step : Z) (st : state) : state :=
  match step_buttons st !! step with
  | Some _ =>
      let canContinue := canContinueFromStep (JNum step) completedSteps in
      let text := if includes step completedSteps then Completed
                  else if canContinue then Available else Locked in
      set_step_buttons
        (<[step := {| disabled := negb canContinue; label := Some text |}]> (step_buttons st))
        st
  | None => st
  end.

(** The loop of [updateStepSelector], over the array it has read. *)
Definition update_buttons (completedSteps : list jsval) (st : state) : state :=
  st ▷ update_button completedSteps 1
     ▷ update_button completedSteps 2
     ▷ update_button completedSteps 3.

(** [updateStepSelector(sessionData)]; [None] when it throws. A value of
    [completed_steps] that is no array is not met here: in [selectSession]
    [updateSelectedSessionInfo] runs first and throws on it. *)
Definition updateStepSelector (sessionData : jsval) (st : state) : option state :=
  match completed_steps_of sessionData with
  | Some (JArr completedSteps) => Some (update_buttons completedSteps st)
  | _ => None
  end.

Definition is_string (v : jsval) : bool :=
  match v with JStr _ => true | _ => false end.

(** [updateSelectedSessionInfo(sessionData)]; [None] when building the text
    throws: [session_id.substring] needs a string and [completedSteps.join]
    an array. *)
Definition updateSelectedSessionInfo (sessionData : jsval) (st : state) : option state :=
  if truthy sessionData then
    match completed_steps_of sessionData, Analysis.member "session_id" sessionData with
    | Some (JArr _), Some (JStr _) => Some (emit (UpdateSelectedSessionInfo sessionData) st)
    | _, _ => None
    end
  else Some (emit ClearSelectedSessionInfo st).

(** The [catch] block of [selectSession]. *)
Definition selectSession_catch (c : cause) (st : state) : state :=
  st ▷ emit (ConsoleError "Erro ao selecionar sessão:")
     ▷ emit (ErrorNotice "Erro ao selecionar sessão: " c).

(** [selectSession(sessionId)]; [item_listed] tells whether the page has
    the element [[data-session-id="sessionId"]]. *)
Definition selectSession (sessionId : string) (r : Analysis.reply) (item_listed : bool)
  (st : state) : state :=
  let st1 := st ▷ set_selection (Some sessionId) (currentSessionId st)
                ▷ emit (Fetch Analysis.GET ("/api/sessions/load/" +:+ sessionId)) in
  match r with
  | Analysis.Json _ result =>
      if truthy (prop "success" result) then
        let sessionData := prop "session_data" result in
        match updateSelectedSessionInfo sessionData st1 with
        | Some st2 =>
            match updateStepSelector sessionData st2 with
            | Some st3 =>
                if item_listed then
                  st3 ▷ emit (MarkSelected sessionId)
                      ▷ emit (Notice "Sessão selecionada: " (Some (JStr sessionId))
                                Analysis.Success)
                else selectSession_catch Thrown st3
            | None => selectSession_catch Thrown st2
            end
        | None => selectSession_catch Thrown st1
        end
      else selectSession_catch (ErrorArg (prop "error" result)) st1
  | Analysis.FetchRejects m | Analysis.BodyRejects _ m =>
      selectSession_catch (Rejection m) st1
  end.

(** [selectStep(step)]. Without a button for the step, the function stops
    at [btn.classList] with the step already recorded. *)
Definition selectStep (step : Z) (st : state) : state :=
  if Analysis.id_truthy (selectedSessionId st) then
    match step_buttons st !! step with
    | Some btn =>
        if disabled btn then
          emit (Notice ("Etapa " +:+ pretty step
                        +:+ " não disponível. Complete as etapas anteriores primeiro.")
                  None Analysis.Warning) st
        else
          st ▷ set_selectedStep (Some step)
             ▷ set_continueBtn_disabled false
             ▷ emit (Notice ("Etapa " +:+ pretty step +:+ " selecionada") None Analysis.Info)
    | None => set_selectedStep (Some step) st
    end
  else emit (Notice "Selecione uma sessão primeiro" None Analysis.Warning) st.

(** [startNewSession()] *)
Definition startNewSession (st : state) : state :=
  st ▷ set_selection None None
     ▷ emit ClearSelectedSessionInfo
     ▷ set_continueBtn_disabled true
     ▷ set_step_buttons ((λ btn, {| disabled := true; label := label btn |})
                           <$> step_buttons st)
     ▷ emit (Notice "Nova sessão iniciada" None Analysis.Info).

(** Whether the template of [displaySavedSessions] can be built for one
    session: it reads [session_id.substring] unless a display name is given
    and calls [includes] on the completed steps. *)
Definition item_renders (session : jsval) : bool :=
  match session with
  | JObj o =>
      (truthy (prop "display_name" o) || is_string (prop "session_id" o))
      && match js_or (prop "completed_steps" o) (JArr []) with
         | JArr _ | JStr _ => true
         | _ => false
         end
  | _ => false
  end.

(** [displaySavedSessions(sessions)]: the sessions it shows ([[]] for the
    empty notice), or [None] when it throws. *)
Definition displaySavedSessions (sessions : jsval) : option (list jsval) :=
  if truthy sessions then
    match sessions with
    | JArr l => if forallb item_renders l then Some l else None
    | JObj o => if is_num 0 (prop "length" o) then Some [] else None
    | _ => None
    end
  else Some [].

(** [loadSavedSessions()] *)
Definition loadSavedSessions (r : Analysis.reply) (st : state) : state :=
  let st1 := emit (Fetch Analysis.GET "/api/sessions/list") st in
  let failed (st : state) :=
    st ▷ emit (ConsoleError "Erro ao carregar sessões:") ▷ emit (DisplaySavedSessions []) in
  match r with
  | Analysis.Json _ result =>
      if truthy (prop "success" result) then
        let st2 := set_availableSessions (prop "sessions" result) st1 in
        match displaySavedSessions (prop "sessions" result) with
        | Some shown => emit (DisplaySavedSessions shown) st2
        | None => failed st2
        end
      else failed st1
  | Analysis.FetchRejects _ | Analysis.BodyRejects _ _ => failed st1
  end.

(** [deleteSession(sessionId)]; [confirmed] answers [confirm] and [r_list]
    the reload of the list. *)
Definition deleteSession (sessionId : string) (confirmed : bool)
  (r r_list : Analysis.reply) (st : state) : state :=
  if confirmed then
    let st1 := emit (Fetch Analysis.DELETE ("/api/sessions/delete/" +:+ sessionId)) st in
    let failed (c : cause) :=
      st1 ▷ emit (ConsoleError "Erro ao deletar sessão:")
          ▷ emit (ErrorNotice "Erro ao deletar sessão: " c) in
    match r with
    | Analysis.Json _ result =>
        if truthy (prop "success" result) then
          let st2 := emit (Notice "Sessão deletada com sucesso" None Analysis.Success) st1 in
          let st3 := if decide (selectedSessionId st2 = Some sessionId)
                     then startNewSession st2 else st2 in
          loadSavedSessions r_list st3
        else failed (ErrorArg (prop "error" result))
    | Analysis.FetchRejects m | Analysis.BodyRejects _ m => failed (Rejection m)
    end
  else st.

(** A page of the session manager as it loads, with its three step buttons. *)
Definition initial_page : state :=
  {| selectedSessionId := None; selectedStep := None; availableSessions := JArr [];
     currentSessionId := None;
     step_buttons := {[ 1 := {| disabled := true; label := None |};
                        2 := {| disabled := true; label := None |};
                        3 := {| disabled := true; label := None |} ]};
     continueBtn_disabled := true; trace := [] |}.

(** [{success: true, session_data: {session_id, metadata: {completed_steps}}}] *)
Definition load_reply (sessionId : string) (completedSteps : list jsval) : Analysis.reply :=
  Analysis.Json true
    {[ "success" := JBool true;
       "session_data" := JObj {[ "session_id" := JStr sessionId;
                                 "metadata" := JObj {[ "completed_steps" :=
                                                         JArr completedSteps ]} ]} ]}.

End SessionManager.

(** * Properties *)

(** ** Values *)

Lemma is_num_true (n : Z) (v : jsval) : is_num n v = true ↔ v = JNum n.
Proof.
destruct v; simpl; try (split; [discriminate | congruence]).
rewrite Z.eqb_eq. split; [intros -> | intros [= ->]]; reflexivity.
Qed.

Lemma includes_true (n : Z) (arr : list jsval) : includes n arr = true ↔ JNum n ∈ arr.
Proof.
unfold includes. rewrite existsb_exists, list_elem_of_In. split.
- intros (v & Hin & Hv). apply is_num_true in Hv. by subst.
- intros Hin. exists (JNum n). split; [done | by apply is_num_true].
Qed.

(** ** The step gate *)

Section StepGateFacts.
Import StepGate.

Lemma canContinueFromStep_1 cs : canContinueFromStep (JNum 1) cs = true.
Proof. reflexivity. Qed.

Lemma canContinueFromStep_2 cs : canContinueFromStep (JNum 2) cs = includes 1 cs.
Proof. reflexivity. Qed.

Lemma canContinueFromStep_3 cs :
  canContinueFromStep (JNum 3) cs = includes 1 cs && includes 2 cs.
Proof. reflexivity. Qed.

Lemma canContinueFromStep_other (k : Z) cs :
  k ≠ 1 → k ≠ 2 → k ≠ 3 → canContinueFromStep (JNum k) cs = false.
Proof.
  intros H1 H2 H3. unfold canContinueFromStep. simpl.
  by rewrite !(proj2 (Z.eqb_neq _ _)).
Qed.

(** C1. [canContinueFromStep] is a function of the step and the completed
  steps alone; step 1 can always be resumed, and a step [k] with
  [1 < k ≤ 3] can be resumed exactly when every step of [1..k-1] is among
  the completed steps. In particular the five sample calls of the
  specification come out as listed. *)
Theorem canContinueFromStep_spec (completed_steps : list jsval) :
  canContinueFromStep (JNum 1) completed_steps = true
  ∧ (∀ k : Z, 1 < k ≤ 3 →
       canContinueFromStep (JNum k) completed_steps = true
       ↔ ∀ j, 1 ≤ j < k → JNum j ∈ completed_steps)
  ∧ canContinueFromStep (JNum 2) [JNum 1] = true
  ∧ canContinueFromStep (JNum 2) [] = false
  ∧ canContinueFromStep (JNum 3) [JNum 1; JNum 2] = true
  ∧ canContinueFromStep (JNum 3) [JNum 1] = false.
Proof.
  split; [apply canContinueFromStep_1 |].
  split; [| by repeat split].
  intros k Hk. assert (k = 2 ∨ k = 3) as [-> | ->] by lia.
  - rewrite canContinueFromStep_2, includes_true. split.
    + intros H1 j Hj. by replace j with 1 by lia.
    + intros H. apply H. lia.
  - rewrite canContinueFromStep_3, andb_true_iff, !includes_true. split.
    + intros [H1 H2] j Hj. assert (j = 1 ∨ j = 2) as [-> | ->] by lia; done.
    + intros H. split; apply H; lia.
Qed.

Lemma canContinueFromStep_spec_witness :
  1 < 3 ≤ 3
  ∧ (canContinueFromStep (JNum 3) [JNum 2; JNum 1] = true
     ↔ ∀ j, 1 ≤ j < 3 → JNum j ∈ [JNum 2; JNum 1]).
Proof.
  split; [lia |].
  apply (proj1 (proj2 (canContinueFromStep_spec [JNum 2; JNum 1])) 3). lia.
Defined.

(** C10. [canContinueFromStep] answers for every integer step, and the
  answer is [false] for every step outside [1..3], whatever the
  completed steps are. *)
Theorem canContinueFromStep_out_of_range (step : Z) (completed_steps : list jsval) :
  ¬ (1 ≤ step ≤ 3) → canContinueFromStep (JNum step) completed_steps = false.
Proof. intros H. apply canContinueFromStep_other; lia. Qed.

Lemma canContinueFromStep_out_of_range_witness :
  canContinueFromStep (JNum 0) [JNum 1; JNum 2; JNum 3] = false
  ∧ canContinueFromStep (JNum (-2)) [JNum 1; JNum 2; JNum 3] = false
  ∧ canContinueFromStep (JNum 4) [JNum 1; JNum 2; JNum 3] = false.
Proof.
  split; [| split]; apply canContinueFromStep_out_of_range; lia.
Defined.

End StepGateFacts.

(** ** The browser-session identifier *)

Section SessionIdFacts.
Import SessionId.

Lemma fresh_id_nonempty (now : Z) (rnd : string) :
  String.eqb ("session_" +:+ pretty now +:+ "_" +:+ rnd) "" = false.
Proof. reflexivity. Qed.

(** Once an id is stored, a call returns it and leaves the storage alone. *)
Lemma getSessionId_stored now rnd (ss : gmap string string) (sid : string) :
  ss !! storage_key = Some sid → String.eqb sid "" = false →
  getSessionId now rnd ss = (sid, ss).
Proof. intros Hs He. unfold getSessionId. by rewrite Hs, He. Qed.

Lemma getSessionId_stores now rnd (ss : gmap string string) :
  (getSessionId now rnd ss).2 !! storage_key = Some (getSessionId now rnd ss).1
  ∧ String.eqb (getSessionId now rnd ss).1 "" = false.
Proof.
  unfold getSessionId.
  destruct (ss !! storage_key) as [sid|] eqn:Hs.
  - destruct (String.eqb sid "") eqn:He; simpl.
    + by rewrite lookup_insert_eq.
    + done.
  - simpl. by rewrite lookup_insert_eq.
Qed.

(** C9. [getSessionId] is idempotent over the session storage: a first call
  that finds no stored id makes a fresh one and stores it, and every
  call after a first call returns that same id and leaves the storage as
  it is, so two consecutive calls return equal values. *)
Theorem getSessionId_idempotent (now now' : Z) (rnd rnd' : string)
    (ss : gmap string string) :
  let first := getSessionId now rnd ss in
  (ss !! storage_key = None →
     first.1 = "session_" +:+ pretty now +:+ "_" +:+ rnd
     ∧ first.2 = <[storage_key := first.1]> ss)
  ∧ getSessionId now' rnd' first.2 = (first.1, first.2).
Proof.
  intros first. split.
  - intros Hs. unfold first, getSessionId. by rewrite Hs.
  - destruct (getSessionId_stores now rnd ss) as [Hst Hne].
    by apply getSessionId_stored.
Qed.

Lemma getSessionId_idempotent_witness :
  (∅ : gmap string string) !! storage_key = None
  ∧ (getSessionId 1700000000000 "k3j9x0q2a" ∅).1 = "session_1700000000000_k3j9x0q2a"
  ∧ getSessionId 1700000003000 "zzzzzzzzz" (getSessionId 1700000000000 "k3j9x0q2a" ∅).2
    = getSessionId 1700000000000 "k3j9x0q2a" ∅.
Proof.
  pose proof (getSessionId_idempotent 1700000000000 1700000003000
                "k3j9x0q2a" "zzzzzzzzz" ∅) as [Hfresh Hagain].
  split; [reflexivity |]. split.
  - exact (proj1 (Hfresh eq_refl)).
  - rewrite Hagain. by destruct (getSessionId _ _ _).
Defined.

End SessionIdFacts.

(** ** analysis.js: traces and timers *)

Section AnalysisFacts.
Import Analysis Scenario.

Lemma new_events_app (st st' : state) (es : list event) :
  trace (env st') = trace (env st) ++ es → new_events st st' = es.
Proof. unfold new_events. intros ->. apply drop_app_length. Qed.

Lemma id_truthy_Some (sid : string) : sid ≠ "" → id_truthy (Some sid) = true.
Proof. intros H. simpl. by rewrite (proj2 (String.eqb_neq _ _) H). Qed.

(** Arming the progress timer adds an entry to the timer table and removes
    none: an entry armed earlier stays where it was. *)
Lemma startProgressMonitoring_timers (st : state) :
  id_truthy (currentSessionId (sys st)) = true →
  timers (env (startProgressMonitoring st))
    = <[next_handle (env st) := ProgressTick]> (timers (env st))
  ∧ progressInterval (sys (startProgressMonitoring st)) = Some (next_handle (env st)).
Proof. intros H. unfold startProgressMonitoring. rewrite H. done. Qed.

Lemma startProgressMonitoring_keeps (st : state) (h : positive) :
  id_truthy (currentSessionId (sys st)) = true →
  h ≠ next_handle (env st) →
  timers (env (startProgressMonitoring st)) !! h = timers (env st) !! h.
Proof.
  intros H Hne. destruct (startProgressMonitoring_timers st H) as [-> _].
  by rewrite lookup_insert_ne.
Qed.

(** C2. Evaluation of the code where the claim fails. The page loads with
    session A recorded as current and running, which arms timer 1; the
    user then continues session B. [continueSession] arms timer 2 and
    never clears timer 1: two progress timers are live, timer 1 can no
    longer be cleared through [progressInterval], and each of its later
    firings asks for the progress of B. *)
Theorem continueSession_keeps_earlier_timer :
  let st_a := restoreLastSession (status_reply "running") (page_with_marker "A") in
  let st_b := continueSession "B" success_reply st_a in
  progressInterval (sys st_a) = Some 1%positive
  ∧ progress_timers st_a = {[ 1%positive := ProgressTick ]}
  ∧ progressInterval (sys st_b) = Some 2%positive
  ∧ progress_timers st_b = {[ 1%positive := ProgressTick; 2%positive := ProgressTick ]}
  ∧ progress_timers (stopProgressMonitoring st_b) = {[ 1%positive := ProgressTick ]}
  ∧ (∀ r r1 r2, is_Some (progress_timer_fires 1 r r1 r2 st_b))
  ∧ new_events st_b (tick_fetch st_b) = [Fetch GET "/api/progress/B"].
Proof.
  split; [by vm_compute |]. split; [by vm_compute |].
  split; [by vm_compute |]. split; [by vm_compute |].
  split; [by vm_compute |]. split; [| by vm_compute].
  intros r r1 r2. unfold progress_timer_fires.
  replace (timers _ !! _) with (Some ProgressTick) by (by vm_compute). eauto.
Qed.

(** Reloading the session list touches neither the timers, nor the
    marker, nor the poller, and notifies no success. *)
Lemma loadSavedSessions_frame (r1 r2 : reply) (st : state) :
  let st' := loadSavedSessions r1 r2 st in
  glob st' = glob st
  ∧ timers (env st') = timers (env st)
  ∧ ls_currentSessionId (env st') = ls_currentSessionId (env st)
  ∧ progressInterval (sys st') = progressInterval (sys st)
  ∧ currentSessionId (sys st') = currentSessionId (sys st)
  ∧ ∃ es, trace (env st') = trace (env st) ++ es ∧ success_notifications es = [].
Proof.
  unfold loadSavedSessions, loadSavedSessions_result, loadSavedSessions_catch.
  repeat case_match; simpl; repeat (split; [reflexivity |]);
    rewrite <- ?app_assoc; eexists; (split; [reflexivity | reflexivity]).
Qed.

Lemma progress_timers_lookup (st : state) (h : positive) :
  progress_timers st !! h = Some ProgressTick ↔ timers (env st) !! h = Some ProgressTick.
Proof.
  unfold progress_timers. rewrite map_lookup_filter_Some. simpl.
  split; [by intros [? _] | by intros ?].
Qed.

Lemma stopProgressMonitoring_frame (st : state) :
  let st' := stopProgressMonitoring st in
  glob st' = glob st
  ∧ trace (env st') = trace (env st)
  ∧ ls_currentSessionId (env st') = ls_currentSessionId (env st)
  ∧ progressInterval (sys st') = None
  ∧ timers (env st') = from_option (λ h, delete h (timers (env st))) (timers (env st))
                         (progressInterval (sys st)).
Proof.
  unfold stopProgressMonitoring.
  destruct (progressInterval (sys st)) eqn:E; simpl; auto.
Qed.

Lemma success_notifications_app (es es' : list event) :
  success_notifications (es ++ es') = success_notifications es ++ success_notifications es'.
Proof. apply List.filter_app. Qed.

(** A completion tick in a state whose only progress timer is the one
    [progressInterval] holds: the timer goes, the marker is removed and the
    tick notifies success once. *)
Lemma completion_tick_sole_timer (st : state) (h : positive) (ok : bool) (data : obj)
    (r1 r2 : reply) :
  progressInterval (sys st) = Some h →
  progress_timers st = {[ h := ProgressTick ]} →
  truthy (prop "success" data) = true →
  truthy (prop "completed" data) = true →
  ∃ st', progress_timer_fires h (Json ok data) r1 r2 st = Some st'
    ∧ progress_timers st' = ∅
    ∧ progressInterval (sys st') = None
    ∧ ls_currentSessionId (env st') = None
    ∧ success_notifications (new_events st st')
      = [Notification "Análise concluída com sucesso!" None Success].
Proof.
  intros Hh Ht Hs Hc.
  assert (timers (env st) !! h = Some ProgressTick) as Hlive.
  { apply progress_timers_lookup. rewrite Ht. apply lookup_singleton_eq. }
  unfold progress_timer_fires. rewrite Hlive. eexists. split; [reflexivity |].
  unfold tick_settle. rewrite Hs, Hc.
  match goal with |- context [loadSavedSessions r1 r2 ?s] =>
    destruct (loadSavedSessions_frame r1 r2 s) as (_ & Ht' & Hm' & Hp' & _ & es & Hes & Hnone);
    set (st1 := s) in *
  end.
  match goal with _ := context [stopProgressMonitoring ?s] |- _ =>
    destruct (stopProgressMonitoring_frame s) as (_ & Htr & _ & Hpi & Htm)
  end.
  split; [| split; [| split]].
  - unfold progress_timers. rewrite Ht'. unfold st1. simpl. rewrite Htm. simpl.
    rewrite Hh. simpl. rewrite map_filter_delete. fold (progress_timers st).
    rewrite Ht. apply delete_singleton_eq.
  - rewrite Hp'. unfold st1. simpl. apply Hpi.
  - rewrite Hm'. reflexivity.
  - unfold new_events. rewrite Hes. unfold st1. simpl. rewrite Htr. simpl.
    rewrite <- !app_assoc, drop_app_length. simpl.
    by rewrite Hnone.
Qed.

(** C8. Evaluation of the code where the claim fails, from the same defect
    as C2: with the two timers of that scenario live, the completion tick on
    timer 2 clears timer 2 and the marker and notifies once, but timer 1
    keeps firing; its next tick finds the session completed and notifies
    completion a second time, and it is still live afterwards. *)
Theorem completion_notified_twice :
  let st_a := restoreLastSession (status_reply "running") (page_with_marker "A") in
  let st_b := continueSession "B" success_reply st_a in
  ∃ st_c st_d,
    progress_timer_fires 2 completed_reply empty_list_reply empty_list_reply st_b = Some st_c
    ∧ progress_timer_fires 1 completed_reply empty_list_reply empty_list_reply st_c = Some st_d
    ∧ progressInterval (sys st_c) = None
    ∧ ls_currentSessionId (env st_c) = None
    ∧ progress_timers st_c = {[ 1%positive := ProgressTick ]}
    ∧ success_notifications (new_events st_b st_c)
      = [Notification "Análise concluída com sucesso!" None Success]
    ∧ success_notifications (new_events st_b st_d)
      = [Notification "Análise concluída com sucesso!" None Success;
         Notification "Análise concluída com sucesso!" None Success]
    ∧ progress_timers st_d = {[ 1%positive := ProgressTick ]}.
Proof.
  do 2 eexists. split; [by vm_compute |]. split; [by vm_compute |].
  repeat split; by vm_compute.
Qed.

(** ** Restoring the last session on load *)

Lemma network_calls_app (es es' : list event) :
  network_calls (es ++ es') = network_calls es ++ network_calls es'.
Proof. apply List.filter_app. Qed.

Lemma notifications_app (es es' : list event) :
  notifications (es ++ es') = notifications es ++ notifications es'.
Proof. apply List.filter_app. Qed.

Lemma restoreFormData_frame (st : state) :
  let st' := restoreFormData st in
  glob st' = glob st ∧ sys st' = sys st
  ∧ timers (env st') = timers (env st)
  ∧ ls_currentSessionId (env st') = ls_currentSessionId (env st)
  ∧ ∃ es, trace (env st') = trace (env st) ++ es
          ∧ network_calls es = [] ∧ notifications es = [].
Proof.
  unfold restoreFormData.
  destruct (ls_formData (env st)) as [[data|]|]; simpl;
    repeat (split; [reflexivity |]).
  - exists []. by rewrite app_nil_r.
  - by eexists.
  - exists []. by rewrite app_nil_r.
Qed.

(** What [restoreLastSession] adds to the trace, given what
    [checkSessionStatus] added before the form was restored. *)
Lemma restoreLastSession_events (st mid : state) (es : list event) :
  trace (env mid) = trace (env st) ++ es →
  ∃ es', new_events st (restoreFormData mid) = es ++ es'
         ∧ network_calls es' = [] ∧ notifications es' = [].
Proof.
  intros Hmid.
  destruct (restoreFormData_frame mid) as (_ & _ & _ & _ & es' & Htr & Hn & Hq).
  exists es'. split; [| done].
  apply new_events_app. by rewrite Htr, Hmid, app_assoc.
Qed.

(** Splits a goal about [restoreFormData mid] into what [mid] is and the
    harmless events the form restoration may add. *)
Ltac restored st :=
  match goal with
  | |- context [restoreFormData ?m] =>
      let es := fresh "es" in
      let Hev := fresh "Hev" in
      let Hs := fresh "Hs" in
      let Ht := fresh "Ht" in
      let Hm := fresh "Hm" in
      let Hn := fresh "Hn" in
      let Hq := fresh "Hq" in
      destruct (restoreFormData_frame m) as (_ & Hs & Ht & Hm & _);
      edestruct (restoreLastSession_events st m) as (es & Hev & Hn & Hq);
      [ simpl; rewrite <- ?app_assoc; reflexivity | ];
      rewrite ?Hs, ?Ht, ?Hm, ?Hev, ?network_calls_app, ?notifications_app, ?Hn, ?Hq;
      simpl
  end.

(** C3 as the code has it. With no usable marker nothing is fetched. With
    the marker naming [sid] the status of [sid] is fetched once, and on a
    successful reply: [running] arms the progress timer and notifies, as
    information, that the session was restored; [paused] updates the
    controls and arms no timer; [completed] removes the marker and notifies
    success; [error] notifies a warning and leaves the marker in place. *)
Theorem restoreLastSession_branches (st : state) (r : reply) :
  let st' := restoreLastSession r st in
  (id_truthy (ls_currentSessionId (env st)) = false →
     network_calls (new_events st st') = []
     ∧ timers (env st') = timers (env st)
     ∧ ls_currentSessionId (env st') = ls_currentSessionId (env st))
  ∧ ∀ (sid status : string) (ok : bool) (result session : obj),
      ls_currentSessionId (env st) = Some sid → sid ≠ "" →
      r = Json ok result →
      truthy (prop "success" result) = true →
      prop "session" result = JObj session →
      prop "status" session = JStr status →
      network_calls (new_events st st') = [Fetch GET ("/api/sessions/" +:+ sid +:+ "/status")]
      ∧ (status = "running" →
           timers (env st') = <[next_handle (env st) := ProgressTick]> (timers (env st))
           ∧ progressInterval (sys st') = Some (next_handle (env st))
           ∧ ls_currentSessionId (env st') = Some sid
           ∧ notifications (new_events st st')
             = [Notification "Sessão anterior restaurada e em execução" None Info])
      ∧ (status = "paused" →
           timers (env st') = timers (env st)
           ∧ progressInterval (sys st') = progressInterval (sys st)
           ∧ UpdateSessionControls "paused" ∈ new_events st st'
           ∧ ls_currentSessionId (env st') = Some sid
           ∧ notifications (new_events st st')
             = [Notification "Sessão anterior encontrada (pausada)" None Info])
      ∧ (status = "completed" →
           timers (env st') = timers (env st)
           ∧ ls_currentSessionId (env st') = None
           ∧ notifications (new_events st st')
             = [Notification "Última sessão foi concluída" None Success])
      ∧ (status = "error" →
           timers (env st') = timers (env st)
           ∧ ls_currentSessionId (env st') = Some sid
           ∧ notifications (new_events st st')
             = [Notification "Última sessão teve erro" None Warning]).
Proof.
  intros st'. subst st'. unfold restoreLastSession. split.
  - intros ->.
    destruct (restoreFormData_frame st) as (_ & _ & Ht & Hm & es & Htr & Hn & _).
    split; [| done]. by rewrite (new_events_app _ _ _ Htr).
  - intros sid status ok result session Hmark Hsid -> Hsucc Hsess Hstat.
    rewrite Hmark, (id_truthy_Some _ Hsid). simpl id_text.
    unfold checkSessionStatus. rewrite Hsucc, Hsess. simpl member. rewrite Hstat.
    assert (negb (String.eqb sid "") = true) as Hne by (by apply id_truthy_Some).
    split; [| split; [| split; [| split]]].
    + destruct (is_str "running" (JStr status)).
      { unfold startProgressMonitoring. simpl. rewrite Hne. by restored st. }
      destruct (is_str "paused" (JStr status)); [by restored st |].
      destruct (is_str "completed" (JStr status)); [by restored st |].
      destruct (is_str "error" (JStr status)); by restored st.
    + intros ->. simpl. unfold startProgressMonitoring. simpl. rewrite Hne. simpl.
      by restored st.
    + intros ->. simpl. restored st. repeat split; try done.
      rewrite list_elem_of_In. simpl. tauto.
    + intros ->. simpl. by restored st.
    + intros ->. simpl. restored st. by rewrite Hmark.
Qed.

(** C3, where the claim fails: the page loads with "s1" as last session and
    the server reports its status as [error]; the warning is shown and the
    marker is still "s1" afterwards. *)
Lemma restoreLastSession_error_keeps_marker :
  let st' := restoreLastSession (status_reply "error") (page_with_marker "s1") in
  notifications (new_events (page_with_marker "s1") st')
    = [Notification "Última sessão teve erro" None Warning]
  ∧ ls_currentSessionId (env st') ≠ None.
Proof. split; by vm_compute. Qed.

Lemma restoreLastSession_branches_witness :
  let st := page_with_marker "s1" in
  (timers (env (restoreLastSession (status_reply "running") st))
     = {[ 1%positive := ProgressTick ]}
   ∧ ls_currentSessionId (env (restoreLastSession (status_reply "running") st)) = Some "s1")
  ∧ ls_currentSessionId (env (restoreLastSession (status_reply "completed") st)) = None
  ∧ ls_currentSessionId (env (restoreLastSession (status_reply "error") st)) = Some "s1"
  ∧ network_calls (new_events fresh_page (restoreLastSession (status_reply "error") fresh_page))
    = [].
Proof.
  intros st.
  assert (ls_currentSessionId (env st) = Some "s1") as Hmark by reflexivity.
  assert ("s1" ≠ "") as Hsid by discriminate.
  assert (∀ status, prop "session" {[ "success" := JBool true;
            "session" := JObj {[ "status" := JStr status ]} ]}
          = JObj {[ "status" := JStr status ]}) as Hsess by (intros; reflexivity).
  split; [| split; [| split]].
  - destruct (proj2 (restoreLastSession_branches st (status_reply "running"))
                "s1" "running" true _ _ Hmark Hsid eq_refl eq_refl (Hsess _) eq_refl)
      as (_ & Hrun & _).
    destruct (Hrun eq_refl) as (Ht & _ & Hm & _). split; [exact Ht | exact Hm].
  - destruct (proj2 (restoreLastSession_branches st (status_reply "completed"))
                "s1" "completed" true _ _ Hmark Hsid eq_refl eq_refl (Hsess _) eq_refl)
      as (_ & _ & _ & Hdone & _).
    exact (proj1 (proj2 (Hdone eq_refl))).
  - destruct (proj2 (restoreLastSession_branches st (status_reply "error"))
                "s1" "error" true _ _ Hmark Hsid eq_refl eq_refl (Hsess _) eq_refl)
      as (_ & _ & _ & _ & Herr).
    exact (proj1 (proj2 (Herr eq_refl))).
  - exact (proj1 (proj1 (restoreLastSession_branches fresh_page (status_reply "error"))
                    eq_refl)).
Defined.

(** ** Polling with [pollProgress] *)

Lemma stopAutoSave_frame (st : state) :
  let st' := stopAutoSave st in
  savedSessions (glob st') = savedSessions (glob st)
  ∧ currentAnalysisId (glob st') = currentAnalysisId (glob st)
  ∧ isAnalysisRunning (glob st') = isAnalysisRunning (glob st)
  ∧ sys st' = sys st
  ∧ ls_analyses (env st') = ls_analyses (env st)
  ∧ trace (env st') = trace (env st)
  ∧ timers (env st') = from_option (λ h, delete h (timers (env st))) (timers (env st))
                         (autoSaveInterval (glob st)).
Proof.
  unfold stopAutoSave. destruct (autoSaveInterval (glob st)) eqn:E; simpl; auto 10.
Qed.

Lemma saveSession_frame (now sid : string) (data : obj) (st : state) :
  let st' := saveSession now sid data st in
  savedSessions (glob st')
    = <[sid := <["progress" := js_or (prop "progress" data) (JNum 0)]>
                 (<["lastSaved" := JStr now]> data)]> (savedSessions (glob st))
  ∧ ls_analyses (env st') = Some (json_object <$> savedSessions (glob st'))
  ∧ trace (env st')
    = trace (env st) ++ [ConsoleLog "✅ Sessões salvas localmente"; UpdateSessionsList]
  ∧ timers (env st') = timers (env st)
  ∧ sys st' = sys st.
Proof. simpl. by rewrite <- app_assoc. Qed.

Lemma prop_insert_eq (k : string) (v : jsval) (o : obj) : prop k (<[k := v]> o) = v.
Proof. unfold prop. by rewrite lookup_insert_eq. Qed.

Lemma prop_insert_ne (k k' : string) (v : jsval) (o : obj) :
  k ≠ k' → prop k' (<[k := v]> o) = prop k' o.
Proof. intros H. unfold prop. by rewrite lookup_insert_ne. Qed.

(** What [pollProgress] does after storing the snapshot leaves the store alone. *)
Lemma pollProgress_tail_frame (data : obj) (st3 : state) :
  let st' := if truthy (prop "completed" data)
             then set_currentAnalysisId None (set_isAnalysisRunning false
                    (stopAutoSave (emit (ShowResults (prop "results" data)) st3)))
             else if isAnalysisRunning (glob st3) then setTimeout PollTimeout st3 else st3 in
  savedSessions (glob st') = savedSessions (glob st3)
  ∧ ls_analyses (env st') = ls_analyses (env st3)
  ∧ ∃ rest, trace (env st') = trace (env st3) ++ rest.
Proof.
  destruct (truthy (prop "completed" data)).
  - match goal with |- context [stopAutoSave ?s] =>
      destruct (stopAutoSave_frame s) as (Ha & _ & _ & _ & Hb & Hc & _) end.
    simpl. rewrite Ha, Hb, Hc. eauto.
  - destruct (isAnalysisRunning (glob st3)); simpl;
      (split; [done | split; [done |]]); exists []; by rewrite app_nil_r.
Qed.

(** C4, where the claim fails: while "s1" is polled the form holds "pets"
    and the cached snapshot "fitness"; the reply carries
    [completed_steps: [1]]. The snapshot stored by the tick has the
    segment of the form, not the cached one, and no completed steps. *)
Lemma pollProgress_replaces_context :
  let st' := pollProgress "2025-01-01T10:00:03.000Z" (Json true progress_data) polling_page in
  ∃ old new,
    savedSessions (glob polling_page) !! "s1" = Some old
    ∧ savedSessions (glob st') !! "s1" = Some new
    ∧ prop "segmento" old = JStr "fitness"
    ∧ prop "segmento" new = JStr "pets"
    ∧ prop "segmento" new ≠ prop "segmento" old
    ∧ prop "completed_steps" progress_data = JArr [JNum 1]
    ∧ prop "completed_steps" new = JUndefined.
Proof. do 2 eexists. repeat split; by vm_compute. Qed.

(** C4 as the code has it. On a tick whose reply has a truthy [success]
    (and a numeric percentage where the page shows it as text), the
    snapshot stored for the polled session is built anew: its progress is
    the remote percentage (0 when that is falsy), its status, step label
    and results are the remote ones, and every other field is the one the
    form holds now; the cached snapshot is replaced, not merged, and no
    completed steps are taken from the reply. The other sessions are
    untouched, the registry is written to localStorage, and the progress
    display is updated in the same run, before the snapshot is stored. *)
Theorem pollProgress_snapshot (st : state) (now sid : string) (ok : bool) (data : obj) :
  currentAnalysisId (glob st) = Some sid → sid ≠ "" →
  truthy (prop "success" data) = true →
  toFixed_throws (prop "percentage" data) st = false →
  let st' := pollProgress now (Json ok data) st in
  ∃ snapshot rest,
    savedSessions (glob st') !! sid = Some snapshot
    ∧ prop "progress" snapshot = js_or (prop "percentage" data) (JNum 0)
    ∧ prop "status" snapshot
      = JStr (if truthy (prop "completed" data) then "completed" else "running")
    ∧ prop "current_step" snapshot = prop "current_step" data
    ∧ prop "results" snapshot = prop "results" data
    ∧ prop "lastSaved" snapshot = JStr now
    ∧ (∀ k, k ∉ ["progress"; "status"; "current_step"; "results"; "lastSaved"] →
         snapshot !! k = JStr <$> form (env st) !! k)
    ∧ (∀ other, other ≠ sid →
         savedSessions (glob st') !! other = savedSessions (glob st) !! other)
    ∧ ls_analyses (env st') = Some (json_object <$> savedSessions (glob st'))
    ∧ new_events st st'
      = [Fetch GET ("/api/progress/" +:+ sid);
         UpdateProgressUI (prop "percentage" data) (prop "current_step" data);
         ConsoleLog "✅ Sessões salvas localmente"; UpdateSessionsList] ++ rest.
Proof.
  intros Hcur Hsid Hsucc Hfix st'. subst st'.
  unfold pollProgress. rewrite Hcur, (proj2 (String.eqb_neq _ _) Hsid), Hsucc.
  replace (toFixed_throws _ _) with false.
  set (st2 := emit (UpdateProgressUI _ _) _).
  set (snap := poll_snapshot _ _).
  destruct (saveSession_frame now sid snap st2) as (Hsaved & Hls & Htr & _).
  destruct (pollProgress_tail_frame data (saveSession now sid snap st2))
    as (Hsv & Hl & rest & Ht).
  exists (<["progress" := js_or (prop "progress" snap) (JNum 0)]>
            (<["lastSaved" := JStr now]> snap)), rest.
  rewrite Hsv, Hl, Hsaved, lookup_insert_eq.
  assert (prop "progress" snap = prop "percentage" data) as Hp.
  { unfold snap, poll_snapshot. rewrite !prop_insert_ne by done. apply prop_insert_eq. }
  split; [reflexivity |].
  split; [by rewrite prop_insert_eq, Hp |].
  split. { unfold snap, poll_snapshot. rewrite !prop_insert_ne by done. apply prop_insert_eq. }
  split. { unfold snap, poll_snapshot. rewrite !prop_insert_ne by done. apply prop_insert_eq. }
  split. { unfold snap, poll_snapshot. rewrite !prop_insert_ne by done. apply prop_insert_eq. }
  split. { rewrite prop_insert_ne by done. apply prop_insert_eq. }
  split.
  { intros k Hk. unfold snap, poll_snapshot, getFormData.
    rewrite !not_elem_of_cons in Hk. destruct Hk as (? & ? & ? & ? & ? & _).
    rewrite !lookup_insert_ne by done. by rewrite lookup_fmap. }
  split. { intros other Hother. by rewrite lookup_insert_ne. }
  split. { by rewrite Hls, Hsaved. }
  apply new_events_app. rewrite Ht, Htr. unfold st2. simpl.
  by rewrite <- !app_assoc.
Qed.

Lemma pollProgress_snapshot_witness :
  ∃ snapshot,
    savedSessions (glob (pollProgress "2025-01-01T10:00:03.000Z" (Json true progress_data)
                           polling_page)) !! "s1" = Some snapshot
    ∧ prop "progress" snapshot = JNum 40
    ∧ snapshot !! "segmento" = Some (JStr "pets").
Proof.
  assert ("s1" ≠ "") as Hsid by discriminate.
  assert ("segmento" ∉ ["progress"; "status"; "current_step"; "results"; "lastSaved"])
    as Hfield by (rewrite !not_elem_of_cons; repeat split; try discriminate;
                  apply not_elem_of_nil).
  destruct (pollProgress_snapshot polling_page "2025-01-01T10:00:03.000Z" "s1" true
              progress_data eq_refl Hsid eq_refl eq_refl)
    as (snapshot & rest & Hstored & Hprogress & _ & _ & _ & _ & Hform & _).
  exists snapshot. split; [exact Hstored |]. split; [exact Hprogress |].
  exact (Hform "segmento" Hfield).
Defined.

(** ** Continuing from the local store *)

Lemma startAutoSave_trace (st : state) : trace (env (startAutoSave st)) = trace (env st).
Proof. unfold startAutoSave. by destruct (autoSaveInterval (glob st)). Qed.

Lemma pollProgress_catch_trace (detail : jsval) (st : state) :
  ∃ es, trace (env (pollProgress_catch detail st)) = trace (env st) ++ es.
Proof.
  unfold pollProgress_catch.
  match goal with |- context [stopAutoSave ?s] =>
    destruct (stopAutoSave_frame s) as (_ & _ & _ & _ & _ & Hc & _) end.
  simpl. rewrite Hc. simpl. rewrite <- app_assoc. eauto.
Qed.

(** [pollProgress] only adds to the trace. *)
Lemma pollProgress_trace (now : string) (r : reply) (st : state) :
  ∃ es, trace (env (pollProgress now r st)) = trace (env st) ++ es.
Proof.
  unfold pollProgress.
  destruct (currentAnalysisId (glob st)) as [sid|]; [| exists []; by rewrite app_nil_r].
  destruct (String.eqb sid ""); [exists []; by rewrite app_nil_r |].
  destruct r as [m | ok m | ok data].
  - destruct (pollProgress_catch_trace (JStr m) (emit (Fetch GET ("/api/progress/" +:+ sid)) st))
      as [es ->]. simpl. rewrite <- app_assoc. eauto.
  - destruct (pollProgress_catch_trace (JStr m) (emit (Fetch GET ("/api/progress/" +:+ sid)) st))
      as [es ->]. simpl. rewrite <- app_assoc. eauto.
  - destruct (truthy (prop "success" data)).
    + destruct (toFixed_throws _ _).
      * match goal with |- context [pollProgress_catch ?d ?s] =>
          destruct (pollProgress_catch_trace d s) as [es ->] end.
        simpl. rewrite <- !app_assoc. eauto.
      * match goal with |- context [saveSession ?n ?i ?d ?s] =>
          destruct (pollProgress_tail_frame data (saveSession n i d s)) as (_ & _ & rest & ->);
          destruct (saveSession_frame n i d s) as (_ & _ & -> & _) end.
        simpl. rewrite <- !app_assoc. eauto.
    + match goal with |- context [pollProgress_catch ?d ?s] =>
        destruct (pollProgress_catch_trace d s) as [es ->] end.
      simpl. rewrite <- !app_assoc. eauto.
Qed.

(** [checkAnalysisStatus] starts with its request. *)
Lemma checkAnalysisStatus_trace (now sid : string) (r r_poll : reply) (st : state) :
  ∃ es, trace (env (checkAnalysisStatus now sid r r_poll st))
        = trace (env st) ++ Fetch GET ("/api/analysis_status/" +:+ sid) :: es.
Proof.
  unfold checkAnalysisStatus.
  destruct r as [m | ok m | ok data]; simpl; try (rewrite <- !app_assoc; by eauto).
  destruct (truthy (prop "success" data)); simpl; [| rewrite <- !app_assoc; by eauto].
  destruct (is_str "running" (prop "status" data)).
  - destruct (toFixed_throws _ _); simpl; [rewrite <- !app_assoc; by eauto |].
    match goal with |- context [pollProgress ?n ?rp ?s] =>
      destruct (pollProgress_trace n rp s) as [es ->] end.
    rewrite startAutoSave_trace. simpl. rewrite <- !app_assoc. simpl. eauto.
  - destruct (is_str "completed" (prop "status" data)).
    + match goal with |- context [stopAutoSave ?s] =>
        destruct (stopAutoSave_frame s) as (_ & _ & _ & _ & _ & -> & _) end.
      simpl. rewrite <- !app_assoc. simpl. eauto.
    + simpl. rewrite <- !app_assoc. simpl. eauto.
Qed.

Lemma fill_input_frame (id : string) (sessionData : obj) (st : state) :
  let st' := fill_input id sessionData st in
  glob st' = glob st ∧ sys st' = sys st
  ∧ timers (env st') = timers (env st)
  ∧ trace (env st') = trace (env st).
Proof. done. Qed.



(** ** Deleting a session *)

(** C6, where the claim fails: [deleteAnalysis] on the stored session "s1",
    once the user confirms, sends nothing to the gateway and removes the
    entry from the store and from localStorage. *)
Lemma deleteAnalysis_without_gateway :
  let st' := deleteAnalysis "s1" true history_page in
  is_Some (savedSessions (glob history_page) !! "s1")
  ∧ network_calls (new_events history_page st') = []
  ∧ savedSessions (glob st') !! "s1" = None
  ∧ ls_analyses (env st') = Some ∅.
Proof. repeat split; try by vm_compute. by eexists. Qed.

(** C6 as the code has it. [deleteSession] of the system, once confirmed,
    sends one DELETE to the gateway and never touches the local store;
    it drops the session from its own session map only when the reply
    reports success, and otherwise leaves that map as it is and notifies
    the error. [deleteAnalysis], once confirmed, sends nothing and removes
    the entry from the local store and its persisted copy. Neither does
    anything when the user declines. *)
Theorem delete_paths (st : state) (sid : string) (r : reply) :
  let st1 := deleteSession sid true r st in
  let st2 := deleteAnalysis sid true st in
  network_calls (new_events st st1) = [Fetch DELETE ("/api/sessions/" +:+ sid)]
  ∧ savedSessions (glob st1) = savedSessions (glob st)
  ∧ ls_analyses (env st1) = ls_analyses (env st)
  ∧ (succeeds r = true →
       sessions (sys st1) = map_delete (JStr sid) (sessions (sys st))
       ∧ notifications (new_events st st1)
         = [Notification "Sessão excluída com sucesso" None Success])
  ∧ (succeeds r = false →
       sessions (sys st1) = sessions (sys st)
       ∧ ∃ detail, notifications (new_events st st1)
                   = [Notification "Erro ao excluir: " (Some detail) Error])
  ∧ deleteSession sid false r st = st
  ∧ network_calls (new_events st st2) = []
  ∧ savedSessions (glob st2) = delete sid (savedSessions (glob st))
  ∧ ls_analyses (env st2) = Some (json_object <$> delete sid (savedSessions (glob st)))
  ∧ deleteAnalysis sid false st = st.
Proof.
  intros st1 st2.
  subst st1 st2. unfold deleteSession, deleteAnalysis, succeeds in *.
  split; [| split; [| split; [| split; [| split]]]].
  - destruct r as [m | ok m | ok data]; [| | destruct (truthy (prop "success" data))];
      (erewrite new_events_app; [| simpl; rewrite <- ?app_assoc; reflexivity]); reflexivity.
  - destruct r as [m | ok m | ok data]; [| | destruct (truthy (prop "success" data))];
      reflexivity.
  - destruct r as [m | ok m | ok data]; [| | destruct (truthy (prop "success" data))];
      reflexivity.
  - destruct r as [m | ok m | ok data]; try discriminate.
    intros ->. split; [reflexivity |].
    erewrite new_events_app; [| simpl; rewrite <- ?app_assoc; reflexivity]. reflexivity.
  - destruct r as [m | ok m | ok data]; [| | intros ->];
      (split; [reflexivity |]); eexists;
      (erewrite new_events_app; [| simpl; rewrite <- ?app_assoc; reflexivity]); reflexivity.
  - split; [reflexivity |]. split.
    + erewrite new_events_app; [| simpl; rewrite <- ?app_assoc; reflexivity]. reflexivity.
    + by repeat split.
Qed.

Lemma delete_paths_witness :
  let st0 := set_sessions [(JStr "s1", JObj {[ "session_id" := JStr "s1" ]})] history_page in
  (sessions (sys (deleteSession "s1" true (failure_reply "locked") st0)) = sessions (sys st0)
   ∧ savedSessions (glob (deleteSession "s1" true (failure_reply "locked") st0))
     = savedSessions (glob st0))
  ∧ sessions (sys (deleteSession "s1" true success_reply st0)) = [].
Proof.
  intros st0. split; [split |].
  - destruct (delete_paths st0 "s1" (failure_reply "locked")) as (_ & _ & _ & _ & Hfail & _).
    exact (proj1 (Hfail eq_refl)).
  - exact (proj1 (proj2 (delete_paths st0 "s1" (failure_reply "locked")))).
  - destruct (delete_paths st0 "s1" success_reply) as (_ & _ & _ & Hok & _).
    exact (proj1 (Hok eq_refl)).
Defined.

(** ** Failures while polling *)

(** One failed tick of the interval poller: a request, a console line,
    and nothing else changes. *)
Lemma failed_tick (st : state) (h : positive) (r : reply) :
  timers (env st) !! h = Some ProgressTick → rejects r = true →
  ∃ st', progress_timer_fires h r r r st = Some st'
    ∧ glob st' = glob st ∧ sys st' = sys st
    ∧ timers (env st') = timers (env st)
    ∧ ls_currentSessionId (env st') = ls_currentSessionId (env st)
    ∧ trace (env st')
      = trace (env st) ++ [Fetch GET ("/api/progress/" +:+ id_text (currentSessionId (sys st)));
                           ConsoleError "Erro no monitoramento:"].
Proof.
  intros Hlive Hr. unfold progress_timer_fires. rewrite Hlive.
  destruct r as [m | ok m | ok data]; try discriminate;
    eexists; (split; [reflexivity |]); simpl; by rewrite <- app_assoc.
Qed.

(** Any number of failed ticks in a row leaves the timer armed. *)
Lemma failed_ticks (rs : list reply) : ∀ (st : state) (h : positive),
  timers (env st) !! h = Some ProgressTick → forallb rejects rs = true →
  ∃ st', progress_timer_fires_each h rs st = Some st'
    ∧ glob st' = glob st ∧ sys st' = sys st
    ∧ timers (env st') = timers (env st)
    ∧ ls_currentSessionId (env st') = ls_currentSessionId (env st)
    ∧ trace (env st')
      = trace (env st)
        ++ flat_map (λ _, [Fetch GET ("/api/progress/" +:+ id_text (currentSessionId (sys st)));
                           ConsoleError "Erro no monitoramento:"]) rs.
Proof.
  induction rs as [| r rs IH]; intros st h Hlive Hrs.
  - exists st. repeat split. by rewrite app_nil_r.
  - simpl in Hrs. apply andb_true_iff in Hrs as [Hr Hrs].
    destruct (failed_tick st h r Hlive Hr) as (st1 & Hfire & Hg1 & Hs1 & Ht1 & Hm1 & Htr1).
    destruct (IH st1 h) as (st' & Hrun & Hg & Hs & Ht & Hm & Htr); [by rewrite Ht1 | done |].
    exists st'. simpl. rewrite Hfire. simpl.
    split; [exact Hrun |]. rewrite Hg, Hs, Ht, Hm, Htr, Htr1, Hs1.
    repeat split; try done. by rewrite <- app_assoc.
Qed.

(** C7, where the claim fails: "s1" is being polled by [pollProgress] and
    the request of the pending poll is rejected by the network. The
    failure is shown as an error alert, the running flag is dropped and no
    further poll is armed: the timer table is empty. *)
Lemma pollProgress_stops_on_transport_failure :
  ∃ st',
    timers (env polling_page) = {[ 1%positive := PollTimeout ]}
    ∧ poll_timeout_fires 1 "2025-01-01T10:00:03.000Z" (FetchRejects "Failed to fetch")
        polling_page = Some st'
    ∧ timers (env st') = ∅
    ∧ isAnalysisRunning (glob st') = false
    ∧ new_events polling_page st'
      = [Fetch GET "/api/progress/s1"; ConsoleError "Erro no polling de progresso:";
         Alert "Erro ao monitorar progresso: " (Some (JStr "Failed to fetch")) Error].
Proof. eexists. repeat split; by vm_compute. Qed.

(** The tick of the interval poller on a parsed reply whose [success] is
    falsy and whose [error] is truthy: the handle held in
    [progressInterval], whichever timer fired, is cleared and forgotten,
    no other timer is touched, and the error is notified once. *)
Lemma error_tick (st : state) (h : positive) (ok : bool) (data : obj) (r1 r2 : reply) :
  timers (env st) !! h = Some ProgressTick →
  truthy (prop "success" data) = false → truthy (prop "error" data) = true →
  ∃ st', progress_timer_fires h (Json ok data) r1 r2 st = Some st'
    ∧ timers (env st') = match progressInterval (sys st) with
                         | Some held => delete held (timers (env st))
                         | None => timers (env st)
                         end
    ∧ progressInterval (sys st') = None
    ∧ new_events st st'
      = [Fetch GET ("/api/progress/" +:+ id_text (currentSessionId (sys st)));
         Notification "Erro: " (Some (prop "error" data)) Error;
         ShowProgress false].
Proof.
  intros Hlive Hs He. unfold progress_timer_fires. rewrite Hlive.
  eexists. split; [reflexivity |]. unfold tick_settle. rewrite Hs, He.
  match goal with |- context [stopProgressMonitoring ?s] =>
    destruct (stopProgressMonitoring_frame s) as (_ & Htr & _ & Hpi & Htm) end.
  simpl. rewrite Htm. simpl. split; [by destruct (progressInterval (sys st)) |].
  split; [done |].
  erewrite new_events_app; [| simpl; rewrite Htr; simpl; rewrite <- ?app_assoc; reflexivity].
  reflexivity.
Qed.

(** Clearing the only progress timer leaves none. *)
Lemma progress_timers_delete_sole (m : gmap positive timer_kind) (h : positive) :
  filter (λ kv : positive * timer_kind, kv.2 = ProgressTick) m = {[ h := ProgressTick ]} →
  filter (λ kv : positive * timer_kind, kv.2 = ProgressTick) (delete h m) = ∅.
Proof. intros Hsole. by rewrite map_filter_delete, Hsole, delete_singleton_eq. Qed.

(** With the two timers that [continueSession] leaves behind, an error
    reply to the tick of either timer clears timer 2 only: timer 1 is
    still live afterwards, and its next tick notifies the error again. *)
Lemma error_tick_with_two_timers :
  let st_a := restoreLastSession (status_reply "running") (page_with_marker "A") in
  let st_b := continueSession "B" success_reply st_a in
  ∀ h, h = 1%positive ∨ h = 2%positive →
  ∃ st' st'',
    progress_timer_fires h (failure_reply "Session not found")
      empty_list_reply empty_list_reply st_b = Some st'
    ∧ progress_timers st' = {[ 1%positive := ProgressTick ]}
    ∧ progress_timer_fires 1 (failure_reply "Session not found")
        empty_list_reply empty_list_reply st' = Some st''
    ∧ progress_timers st'' = {[ 1%positive := ProgressTick ]}
    ∧ notifications (new_events st_b st'')
      = [Notification "Erro: " (Some (JStr "Session not found")) Error;
         Notification "Erro: " (Some (JStr "Session not found")) Error].
Proof.
  intros st_a st_b h Hh.
  set (tick := λ st, st ▷ tick_fetch
                        ▷ tick_settle (failure_reply "Session not found")
                            empty_list_reply empty_list_reply).
  exists (tick st_b), (tick (tick st_b)).
  split; [by destruct Hh as [-> | ->]; vm_compute |].
  split; [by vm_compute |]. split; [by vm_compute |].
  split; by vm_compute.
Qed.

(** C7 as the code has it. In the interval poller of the system a tick
    whose request is rejected or whose body does not parse, whatever the
    HTTP status, is logged to the console and skipped: whatever the number
    of such ticks in a row, the timer stays armed and nothing is notified.
    The code knows no error of a session that is not found; it reads the
    parsed reply only. A reply whose [success] is falsy and whose [error]
    is truthy clears the handle held in [progressInterval] and no other
    timer, and notifies the error once; this ends polling when the timer
    that fired is that handle and is the only progress timer, and no
    progress timer is live afterwards. A parsed reply whose [success] and
    [error] are both falsy is skipped without a word, the timer staying
    armed. In [pollProgress] every failure, a rejected request included,
    alerts the error, drops the running flag and arms no further poll. *)
Theorem polling_failures (st : state) :
  (∀ (h : positive) (rs : list reply),
     timers (env st) !! h = Some ProgressTick → forallb rejects rs = true →
     ∃ st', progress_timer_fires_each h rs st = Some st'
       ∧ timers (env st') = timers (env st)
       ∧ progressInterval (sys st') = progressInterval (sys st)
       ∧ notifications (new_events st st') = []
       ∧ new_events st st'
         = flat_map (λ _, [Fetch GET ("/api/progress/"
                                      +:+ id_text (currentSessionId (sys st)));
                           ConsoleError "Erro no monitoramento:"]) rs)
  ∧ (∀ (h : positive) (ok : bool) (data : obj) (r1 r2 : reply),
       timers (env st) !! h = Some ProgressTick →
       truthy (prop "success" data) = false →
       truthy (prop "error" data) = true →
       ∃ st', progress_timer_fires h (Json ok data) r1 r2 st = Some st'
         ∧ timers (env st') = match progressInterval (sys st) with
                              | Some held => delete held (timers (env st))
                              | None => timers (env st)
                              end
         ∧ progressInterval (sys st') = None
         ∧ notifications (new_events st st')
           = [Notification "Erro: " (Some (prop "error" data)) Error]
         ∧ (progressInterval (sys st) = Some h →
            progress_timers st = {[ h := ProgressTick ]} →
            timers (env st') = delete h (timers (env st))
            ∧ progress_timers st' = ∅
            ∧ ∀ r r1' r2', progress_timer_fires h r r1' r2' st' = None))
  ∧ (∀ (h : positive) (ok : bool) (data : obj) (r1 r2 : reply),
       timers (env st) !! h = Some ProgressTick →
       truthy (prop "success" data) = false →
       truthy (prop "error" data) = false →
       ∃ st', progress_timer_fires h (Json ok data) r1 r2 st = Some st'
         ∧ timers (env st') = timers (env st)
         ∧ sys st' = sys st
         ∧ new_events st st'
           = [Fetch GET ("/api/progress/" +:+ id_text (currentSessionId (sys st)))])
  ∧ (∀ (now sid : string) (r : reply),
       currentAnalysisId (glob st) = Some sid → sid ≠ "" →
       succeeds r = false →
       let st' := pollProgress now r st in
       isAnalysisRunning (glob st') = false
       ∧ timers (env st') ⊆ timers (env st)
       ∧ savedSessions (glob st') = savedSessions (glob st)
       ∧ ∃ detail, new_events st st'
                   = [Fetch GET ("/api/progress/" +:+ sid);
                      ConsoleError "Erro no polling de progresso:";
                      Alert "Erro ao monitorar progresso: " (Some detail) Error]).
Proof.
  split; [| split; [| split]].
  - intros h rs Hlive Hrs.
    destruct (failed_ticks rs st h Hlive Hrs) as (st' & Hrun & _ & Hs & Ht & _ & Htr).
    exists st'. rewrite Hs, (new_events_app _ _ _ Htr). repeat split; try done.
    clear. induction rs as [| r rs IH]; [done | exact IH].
  - intros h ok data r1 r2 Hlive Hs He.
    destruct (error_tick st h ok data r1 r2 Hlive Hs He) as (st' & Hrun & Htm & Hpi & Hev).
    exists st'. split; [exact Hrun |]. split; [exact Htm |]. split; [exact Hpi |].
    split; [by rewrite Hev |].
    intros Hheld Hsole. rewrite Hheld in Htm.
    assert (progress_timers st' = ∅) as Hnone.
    { unfold progress_timers. rewrite Htm. by apply progress_timers_delete_sole. }
    split; [exact Htm |]. split; [exact Hnone |].
    intros r r1' r2'. unfold progress_timer_fires.
    by rewrite Htm, lookup_delete_eq.
  - intros h ok data r1 r2 Hlive Hs He.
    unfold progress_timer_fires. rewrite Hlive. eexists. split; [reflexivity |].
    unfold tick_settle. rewrite Hs, He. repeat split.
    by apply new_events_app.
  - intros now sid r Hcur Hsid Hr st'. subst st'.
    unfold pollProgress. rewrite Hcur, (proj2 (String.eqb_neq _ _) Hsid).
    assert (∀ detail,
      let st' := pollProgress_catch detail (emit (Fetch GET ("/api/progress/" +:+ sid)) st) in
      isAnalysisRunning (glob st') = false
      ∧ timers (env st') ⊆ timers (env st)
      ∧ savedSessions (glob st') = savedSessions (glob st)
      ∧ new_events st st'
                   = [Fetch GET ("/api/progress/" +:+ sid);
                      ConsoleError "Erro no polling de progresso:";
                      Alert "Erro ao monitorar progresso: " (Some detail) Error]) as Hcatch.
    { intros detail. unfold pollProgress_catch.
      match goal with |- context [stopAutoSave ?s] =>
        destruct (stopAutoSave_frame s) as (Hsv & _ & _ & _ & _ & Htr & Htm) end.
      simpl. rewrite Hsv, Htm. repeat split.
      - simpl. destruct (autoSaveInterval (glob st)); simpl; [apply delete_subseteq | done].
      - apply new_events_app. simpl. rewrite Htr. simpl. by rewrite <- !app_assoc. }
    destruct r as [m | ok m | ok data]; simpl in Hr.
    + destruct (Hcatch (JStr m)) as (? & ? & ? & ?). eauto 10.
    + destruct (Hcatch (JStr m)) as (? & ? & ? & ?). eauto 10.
    + rewrite Hr.
      destruct (Hcatch (js_or (prop "error" data) (JStr "Erro ao obter progresso")))
        as (? & ? & ? & ?). eauto 10.
Qed.

Lemma polling_failures_witness :
  let st_a := restoreLastSession (status_reply "running") (page_with_marker "A") in
  (∃ st', progress_timer_fires_each 1 [FetchRejects "Failed to fetch";
                                       BodyRejects false "Unexpected token <";
                                       FetchRejects "Failed to fetch"] st_a = Some st'
          ∧ timers (env st') = timers (env st_a))
  ∧ (∃ st', progress_timer_fires 1 (failure_reply "Session not found")
              empty_list_reply empty_list_reply st_a = Some st'
            ∧ progressInterval (sys st') = None
            ∧ progress_timers st' = ∅)
  ∧ (∃ st', progress_timer_fires 1 (Json false {[ "success" := JBool false ]})
              empty_list_reply empty_list_reply st_a = Some st'
            ∧ timers (env st') = timers (env st_a))
  ∧ isAnalysisRunning (glob (pollProgress "2025-01-01T10:00:03.000Z"
                               (FetchRejects "Failed to fetch") polling_page)) = false.
Proof.
  intros st_a.
  assert ("s1" ≠ "") as Hsid by discriminate.
  assert (timers (env st_a) !! 1%positive = Some ProgressTick) as Hlive by (by vm_compute).
  assert (progressInterval (sys st_a) = Some 1%positive) as Hheld by (by vm_compute).
  assert (progress_timers st_a = {[ 1%positive := ProgressTick ]}) as Hsole by (by vm_compute).
  split; [| split; [| split]].
  - destruct (proj1 (polling_failures st_a) 1%positive
                [FetchRejects "Failed to fetch"; BodyRejects false "Unexpected token <";
                 FetchRejects "Failed to fetch"] Hlive eq_refl)
      as (st' & Hrun & Ht & _).
    exists st'. split; [exact Hrun | exact Ht].
  - assert (truthy (prop "success" {[ "success" := JBool false;
                                       "error" := JStr "Session not found" ]}) = false)
      as Hs by (by vm_compute).
    assert (truthy (prop "error" {[ "success" := JBool false;
                                     "error" := JStr "Session not found" ]}) = true)
      as He by (by vm_compute).
    destruct (proj1 (proj2 (polling_failures st_a)) 1%positive true
                {[ "success" := JBool false; "error" := JStr "Session not found" ]}
                empty_list_reply empty_list_reply Hlive Hs He)
      as (st' & Hrun & _ & Hp & _ & Hstop).
    exists st'. split; [exact Hrun |]. split; [exact Hp |].
    exact (proj1 (proj2 (Hstop Hheld Hsole))).
  - assert (truthy (prop "success" ({[ "success" := JBool false ]} : obj)) = false)
      as Hs by (by vm_compute).
    assert (truthy (prop "error" ({[ "success" := JBool false ]} : obj)) = false)
      as He by (by vm_compute).
    destruct (proj1 (proj2 (proj2 (polling_failures st_a))) 1%positive false
                {[ "success" := JBool false ]}
                empty_list_reply empty_list_reply Hlive Hs He)
      as (st' & Hrun & Ht & _).
    exists st'. split; [exact Hrun | exact Ht].
  - exact (proj1 (proj2 (proj2 (proj2 (polling_failures polling_page)))
                    "2025-01-01T10:00:03.000Z" "s1" (FetchRejects "Failed to fetch")
                    eq_refl Hsid eq_refl)).
Defined.

End AnalysisFacts.

(** * Further properties of analysis.js *)

Section ControlFacts.
Import Analysis AnalysisExt Scenario.

Lemma startProgressMonitoring_fresh (st : state) :
  handles_fresh st → handles_fresh (startProgressMonitoring st).
Proof.
  intros Hf. unfold startProgressMonitoring.
  destruct (id_truthy (currentSessionId (sys st))); [| done].
  intros h. simpl. rewrite lookup_insert. case_decide as Hh.
  - subst h. intros _. lia.
  - intros Hsome. specialize (Hf h Hsome). lia.
Qed.

Lemma next_handle_not_live (st : state) :
  handles_fresh st → timers (env st) !! next_handle (env st) = None.
Proof.
  intros Hf. destruct (timers (env st) !! next_handle (env st)) eqn:E; [| done].
  specialize (Hf _ (mk_is_Some _ _ E)). lia.
Qed.

(** X1. Pausing, resuming or saving makes no optimistic change: when the
    gateway does not report success, or when there is no current session,
    the instance, the module variables, the timers and the marker are as
    before, and the user gets exactly one notification. Without a current
    session nothing is sent. *)
Theorem control_failure_leaves_state (st : state) (r r1 r2 : reply) (st' : state) :
  st' = pauseSession r st ∨ st' = resumeSession r st ∨ st' = system_saveSession r r1 r2 st →
  succeeds r = false ∨ id_truthy (currentSessionId (sys st)) = false →
  sys st' = sys st ∧ glob st' = glob st
  ∧ timers (env st') = timers (env st)
  ∧ ls_currentSessionId (env st') = ls_currentSessionId (env st)
  ∧ length (notifications (new_events st st')) = 1%nat
  ∧ (id_truthy (currentSessionId (sys st)) = false → network_calls (new_events st st') = []).
Proof.
  intros Hop Hfail.
  unfold pauseSession, resumeSession, system_saveSession, succeeds in *.
  destruct (id_truthy (currentSessionId (sys st))) eqn:Hid.
  - destruct Hfail as [Hr | ?]; [| done].
    destruct r as [m | ok m | ok data]; [| | rewrite Hr in Hop];
      destruct Hop as [-> | [-> | ->]]; simpl; repeat (split; [reflexivity |]);
      (split; [| done]);
      (erewrite new_events_app; [| simpl; rewrite <- ?app_assoc; reflexivity]); reflexivity.
  - destruct Hop as [-> | [-> | ->]]; simpl; repeat (split; [reflexivity |]);
      (erewrite new_events_app; [| simpl; reflexivity]); done.
Qed.

Lemma control_failure_leaves_state_witness :
  let st := restoreLastSession (status_reply "running") (page_with_marker "A") in
  sys (pauseSession (failure_reply "busy") st) = sys st
  ∧ timers (env (resumeSession (FetchRejects "Failed to fetch") st)) = timers (env st).
Proof.
  intros st. split.
  - exact (proj1 (control_failure_leaves_state st (failure_reply "busy")
                    (failure_reply "busy") (failure_reply "busy") _
                    (or_introl eq_refl) (or_introl eq_refl))).
  - exact (proj1 (proj2 (proj2 (control_failure_leaves_state st
                    (FetchRejects "Failed to fetch") (failure_reply "busy")
                    (failure_reply "busy") _
                    (or_intror (or_introl eq_refl)) (or_introl eq_refl))))).
Defined.

Lemma pauseSession_success (st : state) (h : positive) (r : reply) :
  id_truthy (currentSessionId (sys st)) = true →
  progressInterval (sys st) = Some h →
  succeeds r = true →
  let st' := pauseSession r st in
  timers (env st') = delete h (timers (env st))
  ∧ next_handle (env st') = next_handle (env st)
  ∧ progressInterval (sys st') = None
  ∧ currentSessionId (sys st') = currentSessionId (sys st)
  ∧ isPaused (sys st') = true
  ∧ ls_currentSessionId (env st') = ls_currentSessionId (env st).
Proof.
  intros Hid Hh Hr st'. subst st'. unfold pauseSession, succeeds in *. rewrite Hid.
  destruct r as [m | ok m | ok data]; try discriminate. rewrite Hr.
  unfold stopProgressMonitoring. simpl. by rewrite Hh.
Qed.

(** X2. A successful pause clears the timer the poller holds, so that it can
    fire no more, and raises the paused flag; the marker stays, so a
    reload finds the session again. *)
Theorem pauseSession_stops_poller (st : state) (h : positive) (r : reply) :
  id_truthy (currentSessionId (sys st)) = true →
  progressInterval (sys st) = Some h →
  succeeds r = true →
  let st' := pauseSession r st in
  timers (env st') = delete h (timers (env st))
  ∧ progressInterval (sys st') = None
  ∧ isPaused (sys st') = true
  ∧ ls_currentSessionId (env st') = ls_currentSessionId (env st)
  ∧ (∀ r' r1 r2, progress_timer_fires h r' r1 r2 st' = None).
Proof.
  intros Hid Hh Hr st'.
  destruct (pauseSession_success st h r Hid Hh Hr) as (Ht & _ & Hpi & _ & Hp & Hm).
  repeat split; try done.
  intros r' r1 r2. unfold progress_timer_fires.
  replace (timers (env st') !! h) with (@None timer_kind); [done |].
  subst st'. by rewrite Ht, lookup_delete_eq.
Qed.

Lemma pauseSession_stops_poller_witness :
  let st := restoreLastSession (status_reply "running") (page_with_marker "A") in
  timers (env (pauseSession success_reply st)) = ∅
  ∧ isPaused (sys (pauseSession success_reply st)) = true.
Proof.
  intros st.
  destruct (pauseSession_stops_poller st 1%positive success_reply eq_refl eq_refl eq_refl)
    as (Ht & _ & Hp & _).
  split; [exact Ht | exact Hp].
Defined.

Lemma progress_timers_insert (st : state) (h : positive) (m : gmap positive timer_kind) :
  filter (λ kv : positive * timer_kind, kv.2 = ProgressTick) (<[h := ProgressTick]> m)
  = <[h := ProgressTick]> (filter (λ kv : positive * timer_kind, kv.2 = ProgressTick) m).
Proof. by rewrite map_filter_insert_True. Qed.

(** X3. Pause followed by resume keeps the poller single: from a state whose
    only progress timer is the one the poller holds, a successful pause
    and a successful resume end with exactly one progress timer, a new
    one, held by the poller. *)
Theorem pause_then_resume_single_timer (st : state) (h : positive) (r_pause r_resume : reply) :
  handles_fresh st →
  id_truthy (currentSessionId (sys st)) = true →
  progressInterval (sys st) = Some h →
  progress_timers st = {[ h := ProgressTick ]} →
  succeeds r_pause = true → succeeds r_resume = true →
  let st' := resumeSession r_resume (pauseSession r_pause st) in
  progress_timers st' = {[ next_handle (env st) := ProgressTick ]}
  ∧ progressInterval (sys st') = Some (next_handle (env st))
  ∧ isPaused (sys st') = false
  ∧ handles_fresh st'.
Proof.
  intros Hf Hid Hh Hsole Hp Hr st'.
  destruct (pauseSession_success st h r_pause Hid Hh Hp) as (Ht & Hnext & Hpi & Hcur & _ & _).
  set (st1 := pauseSession r_pause st) in *.
  subst st'. unfold resumeSession, succeeds in *. rewrite Hcur, Hid.
  destruct r_resume as [m | ok m | ok data]; try discriminate. rewrite Hr.
  unfold startProgressMonitoring. simpl. rewrite Hcur, Hid. simpl.
  rewrite Hnext, Ht. repeat split.
  - unfold progress_timers. simpl. rewrite (progress_timers_insert st), map_filter_delete.
    fold (progress_timers st). rewrite Hsole, delete_singleton_eq. done.
  - intros k. simpl. rewrite lookup_insert. case_decide as Hk.
    + subst k. intros _. lia.
    + intros Hsome.
      assert (is_Some (timers (env st) !! k)) as Hlive.
      { destruct Hsome as [x Hx]. apply lookup_delete_Some in Hx as [_ Hx]. eauto. }
      specialize (Hf k Hlive). lia.
Qed.

Lemma pause_then_resume_single_timer_witness :
  let st := restoreLastSession (status_reply "running") (page_with_marker "A") in
  progress_timers (resumeSession success_reply (pauseSession success_reply st))
  = {[ 2%positive := ProgressTick ]}.
Proof.
  intros st.
  assert (handles_fresh st) as Hf.
  { intros h [k Hk]. change (timers (env st)) with ({[ 1%positive := ProgressTick ]}
      : gmap positive timer_kind) in Hk.
    apply lookup_singleton_Some in Hk as [<- _]. by vm_compute. }
  exact (proj1 (pause_then_resume_single_timer st 1%positive success_reply success_reply
                  Hf eq_refl eq_refl eq_refl eq_refl eq_refl)).
Defined.

(** X4. A successful resume (like every start of the poller) arms a timer and
    clears none: with the handles fresh, the progress timers are one more
    than before, and the ones that were live stay live. *)
Theorem resumeSession_adds_timer (st : state) (r : reply) :
  handles_fresh st →
  id_truthy (currentSessionId (sys st)) = true →
  succeeds r = true →
  let st' := resumeSession r st in
  size (progress_timers st') = S (size (progress_timers st))
  ∧ progress_timers st ⊆ progress_timers st'
  ∧ handles_fresh st'.
Proof.
  intros Hf Hid Hr st'. subst st'. unfold resumeSession, succeeds in *. rewrite Hid.
  destruct r as [m | ok m | ok data]; try discriminate. rewrite Hr.
  pose proof (next_handle_not_live st Hf) as Hnone.
  unfold startProgressMonitoring. simpl. rewrite Hid. simpl.
  assert (progress_timers st !! next_handle (env st) = None) as Hnone'.
  { unfold progress_timers. by rewrite map_lookup_filter_None_2; [| left]. }
  repeat split.
  - unfold progress_timers. simpl. rewrite (progress_timers_insert st).
    fold (progress_timers st). by rewrite map_size_insert_None.
  - unfold progress_timers. simpl. rewrite (progress_timers_insert st).
    fold (progress_timers st). by apply insert_subseteq.
  - intros k. simpl. rewrite lookup_insert. case_decide as Hk.
    + subst k. intros _. lia.
    + intros Hsome. specialize (Hf k Hsome). lia.
Qed.

Lemma resumeSession_adds_timer_witness :
  let st := restoreLastSession (status_reply "running") (page_with_marker "A") in
  size (progress_timers (resumeSession success_reply st)) = 2%nat.
Proof.
  intros st.
  assert (handles_fresh st) as Hf.
  { intros h [k Hk]. change (timers (env st)) with ({[ 1%positive := ProgressTick ]}
      : gmap positive timer_kind) in Hk.
    apply lookup_singleton_Some in Hk as [<- _]. by vm_compute. }
  exact (proj1 (resumeSession_adds_timer st success_reply Hf eq_refl eq_refl)).
Defined.

End ControlFacts.

Section StorageFacts.
Import Analysis AnalysisExt Scenario.

(** The catch block of [clearAllSessions] only reports: it changes no
    part of the state but the trace. *)
Lemma clearAllSessions_catch_frame (detail : jsval) (st : state) :
  let st' := clearAllSessions_catch detail st in
  glob st' = glob st ∧ sys st' = sys st
  ∧ timers (env st') = timers (env st)
  ∧ ls_currentSessionId (env st') = ls_currentSessionId (env st)
  ∧ ls_analyses (env st') = ls_analyses (env st)
  ∧ ls_formData (env st') = ls_formData (env st)
  ∧ form (env st') = form (env st)
  ∧ trace (env st') = trace (env st)
       ++ [ConsoleError "Erro ao limpar sessões:";
           Notification "Erro ao limpar sessões: " (Some detail) Error].
Proof. simpl. by rewrite <- app_assoc. Qed.

(** X5. A bulk clear that fails leaves every local datum as it was: the
    session map, the local store in memory and in localStorage, the
    marker, the saved form and the timers. It sends one or two requests
    and notifies one error. A declined confirmation does nothing at all. *)
Theorem clearAllSessions_failure (st : state) (r1 r2 : reply) (status2 : Z) :
  cleanup_succeeds r1 r2 = false →
  let st' := clearAllSessions true r1 r2 status2 st in
  glob st' = glob st ∧ sys st' = sys st
  ∧ timers (env st') = timers (env st)
  ∧ ls_currentSessionId (env st') = ls_currentSessionId (env st)
  ∧ ls_analyses (env st') = ls_analyses (env st)
  ∧ ls_formData (env st') = ls_formData (env st)
  ∧ (∃ detail, notifications (new_events st st')
               = [Notification "Erro ao limpar sessões: " (Some detail) Error])
  ∧ (1 ≤ length (network_calls (new_events st st')) ≤ 2)%nat
  ∧ clearAllSessions false r1 r2 status2 st = st.
Proof.
  intros Hfail st'. subst st'. unfold clearAllSessions, cleanup_succeeds in *.
  assert (∀ detail (mid : state) (es : list event),
            trace (env mid) = trace (env st) ++ es →
            notifications es = [] → (1 ≤ length (network_calls es) ≤ 2)%nat →
            let st' := clearAllSessions_catch detail mid in
            glob st' = glob mid ∧ sys st' = sys mid
            ∧ timers (env st') = timers (env mid)
            ∧ ls_currentSessionId (env st') = ls_currentSessionId (env mid)
            ∧ ls_analyses (env st') = ls_analyses (env mid)
            ∧ ls_formData (env st') = ls_formData (env mid)
            ∧ (∃ detail, notifications (new_events st st')
                 = [Notification "Erro ao limpar sessões: " (Some detail) Error])
            ∧ (1 ≤ length (network_calls (new_events st st')) ≤ 2)%nat) as Hcatch.
  { intros detail mid es Hmid Hn Hc.
    destruct (clearAllSessions_catch_frame detail mid) as (? & ? & ? & ? & ? & ? & _ & Htr).
    repeat (split; [done |]).
    rewrite (new_events_app st _ (es ++ [ConsoleError "Erro ao limpar sessões:";
               Notification "Erro ao limpar sessões: " (Some detail) Error])).
    - rewrite notifications_app, network_calls_app, Hn, length_app. simpl.
      split; [eauto | lia].
    - by rewrite Htr, Hmid, app_assoc. }
  destruct r1 as [m1 | [] m1 | [] d1]; [| | destruct r2 as [m2 | [] m2 | [] d2] |
                                        | destruct r2 as [m2 | [] m2 | [] d2]];
    simpl in Hfail; unfold clearAllSessions_result; rewrite ?Hfail;
    match goal with
    | |- context [clearAllSessions_catch ?d ?mid] =>
        edestruct (Hcatch d mid) as (Hg & Hs & Ht & Hm & Ha & Hf & Hn & Hc);
        [simpl; rewrite <- ?app_assoc; reflexivity | done | simpl; lia |];
        rewrite Hg, Hs, Ht, Hm, Ha, Hf; repeat split; first [done | lia]
    end.
Qed.

Lemma clearAllSessions_failure_witness :
  sys (clearAllSessions true (Json false ∅) (failure_reply "denied") 200 history_page)
  = sys history_page
  ∧ ls_analyses (env (clearAllSessions true (FetchRejects "Failed to fetch")
                        success_reply 200 history_page))
    = ls_analyses (env history_page).
Proof.
  split.
  - assert (cleanup_succeeds (Json false ∅) (failure_reply "denied") = false) as H
      by (by vm_compute).
    exact (proj1 (proj2 (clearAllSessions_failure history_page (Json false ∅)
                           (failure_reply "denied") 200 H))).
  - exact (proj1 (proj2 (proj2 (proj2 (proj2
             (clearAllSessions_failure history_page (FetchRejects "Failed to fetch")
                success_reply 200 eq_refl)))))).
Defined.

(** X6. A bulk clear that succeeds empties the session map and removes the
    three localStorage keys, but neither the map of saved analyses in
    memory nor the timers: the poller keeps running, and the next
    [saveSession] writes every analysis that was cached before the clear
    back to localStorage. *)
Theorem clearAllSessions_success (st : state) (r1 r2 : reply) (status2 : Z) :
  cleanup_succeeds r1 r2 = true →
  let st' := clearAllSessions true r1 r2 status2 st in
  sessions (sys st') = []
  ∧ ls_currentSessionId (env st') = None
  ∧ ls_analyses (env st') = None
  ∧ ls_formData (env st') = None
  ∧ savedSessions (glob st') = savedSessions (glob st)
  ∧ timers (env st') = timers (env st)
  ∧ progressInterval (sys st') = progressInterval (sys st)
  ∧ currentSessionId (sys st') = currentSessionId (sys st)
  ∧ ∀ (now sid : string) (data old : obj) (other : string),
      other ≠ sid → savedSessions (glob st) !! other = Some old →
      ∃ registry, ls_analyses (env (saveSession now sid data st')) = Some registry
                  ∧ registry !! other = Some (json_object old).
Proof.
  intros Hok st'. subst st'. unfold clearAllSessions, cleanup_succeeds in *.
  destruct r1 as [m1 | [] m1 | [] d1]; [| | destruct r2 as [m2 | [] m2 | [] d2] |
                                        | destruct r2 as [m2 | [] m2 | [] d2]];
    try discriminate; unfold clearAllSessions_result; rewrite Hok; simpl;
    repeat (split; [reflexivity |]);
    intros now sid data old other Hne Hold; eexists; (split; [reflexivity |]);
    by rewrite lookup_fmap, lookup_insert_ne, Hold.
Qed.

Lemma clearAllSessions_success_witness :
  let st' := clearAllSessions true success_reply success_reply 200 polling_page in
  ls_analyses (env st') = None
  ∧ timers (env st') = timers (env polling_page)
  ∧ ∃ registry,
      ls_analyses (env (saveSession "2025-01-01T10:05:00.000Z" "s2" ∅ st')) = Some registry
      ∧ is_Some (registry !! "s1").
Proof.
  intros st'.
  destruct (clearAllSessions_success polling_page success_reply success_reply 200 eq_refl)
    as (_ & _ & Hls & _ & _ & Ht & _ & _ & Hback).
  split; [exact Hls |]. split; [exact Ht |].
  assert ("s1" ≠ "s2") as Hne by discriminate.
  destruct (Hback "2025-01-01T10:05:00.000Z" "s2" ∅ _ "s1" Hne eq_refl)
    as (registry & Hreg & Hs1).
  exists registry. split; [exact Hreg | by eexists].
Defined.



(** X8. What [restoreFormData] puts back after [autoSaveForm]: every field that
    the form had when it was saved and still has gets its saved text,
    whatever was typed since; a field added since keeps its text, and no
    field appears or disappears. In particular, restoring right after
    saving leaves the form as it is. *)
Theorem autoSave_then_restore (st : state) (edited : gmap string string) :
  let st' := restoreFormData (set_form edited (autoSaveForm st)) in
  (∀ name, form (env st') !! name
           = (λ current, default current (form (env st) !! name)) <$> edited !! name)
  ∧ form (env (restoreFormData (autoSaveForm st))) = form (env st).
Proof.
  assert (∀ f : gmap string string,
            form (env (restoreFormData (set_form f (autoSaveForm st))))
            = map_imap (λ name old, Some (from_option input_value old
                                            ((JStr <$> form (env st)) !! name))) f) as Hform
    by reflexivity.
  split.
  - intros name. rewrite Hform, map_lookup_imap, lookup_fmap.
    destruct (edited !! name) as [cur|]; simpl; [| done].
    by destruct (form (env st) !! name).
  - change (restoreFormData (autoSaveForm st))
      with (restoreFormData (set_form (form (env st)) (autoSaveForm st))).
    rewrite Hform. apply map_eq. intros name.
    rewrite map_lookup_imap, lookup_fmap.
    by destruct (form (env st) !! name).
Qed.

End StorageFacts.

Section UploadFacts.
Import Analysis AnalysisExt Scenario.

Lemma validateFile_ok (f : file) (st : state) :
  validateFile f st
  = if file_ok f then (true, st)
    else (false, showNotification
                   (if maxSize <? file_size f then "Arquivo muito grande. Máximo 10MB."
                    else "Tipo de arquivo não suportado.") None Warning st).
Proof.
  unfold validateFile, file_ok.
  destruct (Z.ltb_spec maxSize (file_size f)) as [Hlt | Hle].
  - by rewrite (proj2 (Z.leb_gt _ _) Hlt).
  - rewrite (proj2 (Z.leb_le _ _) Hle). cbn [andb].
    by destruct (existsb (String.eqb (file_type f)) allowedTypes).
Qed.

Lemma handleFiles_trace (files : list file) : ∀ st : state,
  glob (handleFiles files st) = glob st ∧ sys (handleFiles files st) = sys st
  ∧ ∃ es, trace (env (handleFiles files st)) = trace (env st) ++ es
          ∧ network_calls es
            = (λ _, Fetch POST "/api/upload") <$> List.filter file_ok files
          ∧ length (notifications es) = length (List.filter (λ f, negb (file_ok f)) files)
          ∧ Forall (λ e, ∃ text, e = Notification text None Warning) (notifications es).
Proof.
  induction files as [| f files IH]; intros st.
  - repeat split. exists []. by rewrite app_nil_r.
  - simpl. rewrite validateFile_ok. destruct (file_ok f) eqn:Hok; simpl.
    + destruct (IH (uploadFile_request f st)) as (Hg & Hs & es & Htr & Hn & Hw & Hall).
      rewrite Hg, Hs. repeat split.
      exists (Fetch POST "/api/upload" :: es). simpl in *.
      rewrite Htr, <- app_assoc. simpl. rewrite Hn. by repeat split.
    + match goal with |- context [handleFiles files ?s] =>
        destruct (IH s) as (Hg & Hs & es & Htr & Hn & Hw & Hall) end.
      rewrite Hg, Hs. repeat split.
      eexists (Notification _ None Warning :: es). simpl in *.
      rewrite Htr, <- app_assoc. simpl. rewrite Hn, Hw. repeat split.
      constructor; [by eexists | done].
Qed.

(** X9. [handleFiles] sends one upload request for each file that passes
    the check (at most 10 MB and one of the four accepted types) and no
    other request, and warns once for each file it turns away: requests
    and warnings add up to the number of files. *)
Theorem handleFiles_uploads_valid_only (files : list file) (st : state) :
  let st' := handleFiles files st in
  network_calls (new_events st st')
    = (λ _, Fetch POST "/api/upload") <$> List.filter file_ok files
  ∧ length (notifications (new_events st st'))
    = length (List.filter (λ f, negb (file_ok f)) files)
  ∧ Forall (λ e, ∃ text, e = Notification text None Warning)
           (notifications (new_events st st'))
  ∧ (length (network_calls (new_events st st'))
     + length (notifications (new_events st st')) = length files)%nat.
Proof.
  intros st'. destruct (handleFiles_trace files st) as (_ & _ & es & Htr & Hn & Hw & Hall).
  subst st'. rewrite (new_events_app _ _ _ Htr), Hn, Hw, length_fmap.
  repeat split; [done |].
  clear. induction files as [| f files IH]; [done |].
  simpl. destruct (file_ok f); simpl; lia.
Qed.

(** X10. Every upload ends with an error notification, also the one the server
    accepts: the success notification is followed by the report of the
    failed call of the missing [addFileToList]. *)
Theorem uploadFile_always_reports_error (f : file) (r : reply) (st : state) :
  let st' := uploadFile_settle f r st in
  (∃ detail, last (new_events st st') = Some (Notification "Erro no upload: " detail Error))
  ∧ (succeeds r = true ↔
       success_notifications (new_events st st')
       = [Notification ("Arquivo " +:+ file_name f +:+ " enviado com sucesso!") None Success])
  ∧ glob st' = glob st ∧ sys st' = sys st.
Proof.
  intros st'. subst st'. unfold uploadFile_settle, succeeds.
  destruct r as [m | ok m | ok data]; [| | destruct (truthy (prop "success" data))];
    (erewrite new_events_app; [| simpl; rewrite <- ?app_assoc; reflexivity]);
    simpl; repeat split; eauto; discriminate.
Qed.

(** X11. The buttons of a session: delete is always offered, last; continue is
    offered for paused, failed and saved sessions only, the results for
    completed ones only, and never both. *)
Theorem getSessionActions_offers (status : jsval) :
  last (getSessionActions status) = Some DeleteAction
  ∧ (ContinueAction ∈ getSessionActions status
     ↔ status = JStr "paused" ∨ status = JStr "error" ∨ status = JStr "saved")
  ∧ (ViewResultsAction ∈ getSessionActions status ↔ status = JStr "completed")
  ∧ ¬ (ContinueAction ∈ getSessionActions status
       ∧ ViewResultsAction ∈ getSessionActions status).
Proof.
  assert (∀ s, is_str s status = true ↔ status = JStr s) as Hstr.
  { intros s. destruct status; simpl; try (split; [discriminate | congruence]).
    rewrite String.eqb_eq. split; [by intros -> | by intros [= ->]]. }
  assert (∀ s, is_str s status = false → status ≠ JStr s) as Hno.
  { intros s Hf Heq. apply Hstr in Heq. congruence. }
  unfold getSessionActions.
  destruct (is_str "paused" status) eqn:Hp; destruct (is_str "error" status) eqn:He;
    destruct (is_str "saved" status) eqn:Hs; destruct (is_str "completed" status) eqn:Hc;
    simpl;
    repeat match goal with
           | H : is_str _ status = true |- _ => apply Hstr in H
           | H : is_str ?s status = false |- _ => pose proof (Hno s H); clear H
           end;
    try congruence; (split; [reflexivity |]);
    rewrite !list_elem_of_In; simpl; intuition (try congruence; try discriminate).
Qed.

End UploadFacts.

Section SessionMapFacts.
Import Analysis AnalysisExt Scenario.

Lemma same_value_zero_refl (k : jsval) : primitive k = true → same_value_zero k k = true.
Proof.
  destruct k as [| | [] | n | s | |]; simpl; try done.
  - intros _. apply Z.eqb_refl.
  - intros _. apply String.eqb_refl.
Qed.

Lemma same_value_zero_eq (a b : jsval) : same_value_zero a b = true → a = b.
Proof.
  destruct a as [| | x | x | x | |], b as [| | y | y | y | |]; simpl; try done.
  - destruct x, y; simpl; congruence.
  - rewrite Z.eqb_eq. congruence.
  - rewrite String.eqb_eq. congruence.
Qed.

Lemma map_get_set_eq (k v : jsval) (m : list (jsval * jsval)) :
  primitive k = true → map_get k (map_set k v m) = Some v.
Proof.
  intros Hk. induction m as [| [k' v'] m IH]; simpl.
  - by rewrite same_value_zero_refl.
  - destruct (same_value_zero k' k) eqn:E; simpl; by rewrite E.
Qed.

Lemma map_get_set_ne (k k' v : jsval) (m : list (jsval * jsval)) :
  k ≠ k' → map_get k' (map_set k v m) = map_get k' m.
Proof.
  intros Hne. induction m as [| [k0 v0] m IH]; simpl.
  - destruct (same_value_zero k k') eqn:E; [| done].
    by apply same_value_zero_eq in E.
  - destruct (same_value_zero k0 k) eqn:E; simpl.
    + apply same_value_zero_eq in E. subst k0.
      destruct (same_value_zero k k') eqn:E'; [| done].
      by apply same_value_zero_eq in E'.
    + by rewrite IH.
Qed.

Lemma map_get_object (k : jsval) (m : list (jsval * jsval)) :
  primitive k = false → map_get k m = None.
Proof.
  intros Hk. induction m as [| [k0 v0] m IH]; simpl; [done |].
  replace (same_value_zero k0 k) with false; [done |].
  destruct k; try discriminate; by destruct k0.
Qed.

Lemma map_set_keys_distinct (k v : jsval) (m : list (jsval * jsval)) :
  keys_distinct m → keys_distinct (map_set k v m).
Proof.
  induction m as [| [k0 v0] m IH]; simpl; [done |].
  intros [Hk0 Hm]. destruct (same_value_zero k0 k) eqn:E; simpl; [done |].
  split; [| by apply IH].
  destruct (primitive k0) eqn:Hp; [| by apply map_get_object].
  rewrite map_get_set_ne; [done |]. intros ->.
  by rewrite same_value_zero_refl in E.
Qed.

Lemma forEach_set_keys_distinct (l : list jsval) : ∀ m : list (jsval * jsval),
  keys_distinct m → keys_distinct (forEach_set l m).1.
Proof.
  induction l as [| s l IH]; intros m Hm; simpl; [done |].
  destruct (member "session_id" s); [| done].
  apply IH. by apply map_set_keys_distinct.
Qed.

Lemma map_get_delete_eq (k : jsval) (m : list (jsval * jsval)) :
  keys_distinct m → map_get k (map_delete k m) = None.
Proof.
  induction m as [| [k0 v0] m IH]; simpl; [done |].
  intros [Hk0 Hm]. destruct (same_value_zero k0 k) eqn:E; simpl.
  - apply same_value_zero_eq in E. by subst k0.
  - rewrite E. by apply IH.
Qed.

Lemma map_get_delete_ne (k k' : jsval) (m : list (jsval * jsval)) :
  k ≠ k' → map_get k' (map_delete k m) = map_get k' m.
Proof.
  intros Hne. induction m as [| [k0 v0] m IH]; simpl; [done |].
  destruct (same_value_zero k0 k) eqn:E; simpl.
  - apply same_value_zero_eq in E. subst k0.
    destruct (same_value_zero k k') eqn:E'; [| done].
    by apply same_value_zero_eq in E'.
  - by rewrite IH.
Qed.

Lemma map_delete_keys_distinct (k : jsval) (m : list (jsval * jsval)) :
  keys_distinct m → keys_distinct (map_delete k m).
Proof.
  induction m as [| [k0 v0] m IH]; simpl; [done |].
  intros [Hk0 Hm]. destruct (same_value_zero k0 k) eqn:E; simpl; [done |].
  split; [| by apply IH].
  destruct (primitive k0) eqn:Hp; [| by apply map_get_object].
  rewrite map_get_delete_ne; [done |]. intros ->.
  by rewrite same_value_zero_refl in E.
Qed.

(** Loading a list of session objects into the map: an id is found exactly
    when some object of the list carries it, and what is found is the last
    such object of the list. *)
Lemma forEach_set_objects (l : list jsval) : ∀ (m : list (jsval * jsval)) (id : string),
  forallb is_object l = true →
  (forEach_set l m).2 = true
  ∧ map_get (JStr id) (forEach_set l m).1
    = match last (List.filter (has_session_id id) l) with
      | Some session => Some session
      | None => map_get (JStr id) m
      end.
Proof.
  induction l as [| s l IH]; intros m id Hall; simpl; [done |].
  simpl in Hall. apply andb_true_iff in Hall as [Hs Hl].
  destruct s as [| | | | | |o]; try discriminate. simpl.
  destruct (IH (map_set (prop "session_id" o) (JObj o) m) id Hl) as [Hfin Hget].
  split; [done |]. rewrite Hget.
  destruct (is_str id (prop "session_id" o)) eqn:Hid.
  - assert (prop "session_id" o = JStr id) as Hkey.
    { destruct (prop "session_id" o); try discriminate.
      simpl in Hid. apply String.eqb_eq in Hid. by subst. }
    rewrite Hkey, map_get_set_eq by done.
    rewrite last_cons. by destruct (last (List.filter (has_session_id id) l)).
  - rewrite map_get_set_ne; [done |].
    intros Hkey. rewrite Hkey in Hid. simpl in Hid. by rewrite String.eqb_refl in Hid.
Qed.

(** X12. After a successful load of a list of session objects the session map
    holds that list and nothing of what it held before: looking up an id
    gives the last object of the list that carries it, and nothing when no
    object does; the keys are pairwise different. *)
Theorem loadSavedSessions_fills_map (st : state) (result : obj)
    (l : list jsval) (r2 : reply) (id : string) :
  truthy (prop "success" result) = true →
  prop "sessions" result = JArr l →
  forallb is_object l = true →
  let st' := loadSavedSessions (Json true result) r2 st in
  map_get (JStr id) (sessions (sys st')) = last (List.filter (has_session_id id) l)
  ∧ keys_distinct (sessions (sys st'))
  ∧ network_calls (new_events st st') = [Fetch GET "/api/progress/sessions"].
Proof.
  intros Hs Hl Hobj st'. subst st'.
  unfold loadSavedSessions, loadSavedSessions_result. rewrite Hs, Hl. simpl.
  destruct (forEach_set_objects l [] id Hobj) as [Hfin Hget].
  pose proof (forEach_set_keys_distinct l [] I) as Hkeys.
  destruct (forEach_set l []) as [m fin]. simpl in *. subst fin.
  assert (map_get (JStr id) m = last (List.filter (has_session_id id) l)) as Hget'.
  { rewrite Hget. by destruct (last _). }
  unfold loadSavedSessions_catch.
  destruct (has_logger (env st)); simpl; (split; [done |]); (split; [done |]);
    (erewrite new_events_app; [| simpl; rewrite <- ?app_assoc; reflexivity]); done.
Qed.

Lemma loadSavedSessions_fills_map_witness :
  let list := [JObj {[ "session_id" := JStr "a"; "status" := JStr "running" ]};
               JObj {[ "session_id" := JStr "b"; "status" := JStr "paused" ]};
               JObj {[ "session_id" := JStr "a"; "status" := JStr "completed" ]}] in
  let result : obj := {[ "success" := JBool true; "sessions" := JArr list ]} in
  map_get (JStr "a") (sessions (sys (loadSavedSessions (Json true result) success_reply
                                       fresh_page)))
  = Some (JObj {[ "session_id" := JStr "a"; "status" := JStr "completed" ]}).
Proof.
  intros list result.
  assert (truthy (prop "success" result) = true) as Hs by (by vm_compute).
  assert (prop "sessions" result = JArr list) as Hl by (by vm_compute).
  assert (forallb is_object list = true) as Hobj by reflexivity.
  rewrite (proj1 (loadSavedSessions_fills_map fresh_page result list success_reply
                    "a" Hs Hl Hobj)).
  by vm_compute.
Defined.

(** X13. Deleting from the session map. From a map with pairwise different
    keys, a successful [deleteSession] removes the entry of that id and
    no other: the id is no longer found, every other key is found as
    before, and the keys stay different. *)
Theorem deleteSession_removes_entry (st : state) (sid : string) (r : reply) (k : jsval) :
  keys_distinct (sessions (sys st)) →
  succeeds r = true →
  let st' := deleteSession sid true r st in
  map_get (JStr sid) (sessions (sys st')) = None
  ∧ (k ≠ JStr sid → map_get k (sessions (sys st')) = map_get k (sessions (sys st)))
  ∧ keys_distinct (sessions (sys st')).
Proof.
  intros Hkeys Hr st'. subst st'. unfold deleteSession, succeeds in *.
  destruct r as [m | ok m | ok data]; try discriminate. rewrite Hr. simpl.
  split; [by apply map_get_delete_eq |].
  split; [| by apply map_delete_keys_distinct].
  intros Hne. by apply map_get_delete_ne.
Qed.

Lemma deleteSession_removes_entry_witness :
  let st := set_sessions [(JStr "a", JNum 1); (JStr "b", JNum 2)] fresh_page in
  map_get (JStr "a") (sessions (sys (deleteSession "a" true success_reply st))) = None
  ∧ map_get (JStr "b") (sessions (sys (deleteSession "a" true success_reply st)))
    = Some (JNum 2).
Proof.
  intros st.
  assert (keys_distinct (sessions (sys st))) as Hkeys by (by repeat split).
  assert (JStr "b" ≠ JStr "a") as Hne by discriminate.
  destruct (deleteSession_removes_entry st "a" success_reply (JStr "b") Hkeys eq_refl)
    as (Hgone & Hother & _).
  split; [exact Hgone |]. rewrite (Hother Hne). reflexivity.
Defined.

(** X14. When the page defines no global [logger], a load that succeeds still
    ends in the failure path: the map is filled and the list rendered,
    then the warning is shown and the empty list rendered over it. *)
Theorem loadSavedSessions_without_logger (st : state) (result : obj) (l : list jsval)
    (r2 : reply) :
  has_logger (env st) = false →
  truthy (prop "success" result) = true →
  prop "sessions" result = JArr l →
  forallb is_object l = true →
  let st' := loadSavedSessions (Json true result) r2 st in
  sessions (sys st') = (forEach_set l []).1
  ∧ new_events st st'
    = [Fetch GET "/api/progress/sessions"; RenderSessionsList;
       ConsoleError "Erro ao carregar sessões:";
       Notification "Erro ao carregar sessões salvas" None Warning;
       RenderEmptySessionsList].
Proof.
  intros Hlog Hs Hl Hobj st'. subst st'.
  unfold loadSavedSessions, loadSavedSessions_result. rewrite Hs, Hl. simpl.
  destruct (forEach_set_objects l [] "" Hobj) as [Hfin _].
  destruct (forEach_set l []) as [m fin]. simpl in *. subst fin. simpl.
  rewrite Hlog. unfold loadSavedSessions_catch. simpl. split; [done |].
  erewrite new_events_app; [| simpl; rewrite <- ?app_assoc; reflexivity]. done.
Qed.

Lemma loadSavedSessions_without_logger_witness :
  let st := on_env (λ b, {| ls_currentSessionId := ls_currentSessionId b;
                            ls_analyses := ls_analyses b; ls_formData := ls_formData b;
                            form := form b; has_progress_text := has_progress_text b;
                            has_logger := false; timers := timers b;
                            next_handle := next_handle b; trace := trace b |}) fresh_page in
  length (notifications (new_events st (loadSavedSessions empty_list_reply success_reply st)))
  = 1%nat.
Proof.
  intros st.
  assert (truthy (prop "success" ({[ "success" := JBool true; "sessions" := JArr [] ]} : obj))
          = true) as Hs by (by vm_compute).
  assert (prop "sessions" ({[ "success" := JBool true; "sessions" := JArr [] ]} : obj)
          = JArr []) as Hl by (by vm_compute).
  destruct (loadSavedSessions_without_logger st
              {[ "success" := JBool true; "sessions" := JArr [] ]} [] success_reply
              eq_refl Hs Hl eq_refl) as [_ Hev].
  change (loadSavedSessions empty_list_reply success_reply st)
    with (loadSavedSessions (Json true {[ "success" := JBool true; "sessions" := JArr [] ]})
            success_reply st).
  by rewrite Hev.
Defined.

End SessionMapFacts.

Section PollingFacts.
Import Analysis AnalysisExt Scenario.

(** The state after a tick of [pollProgress] whose reply reports success
    and completion. *)
Lemma pollProgress_completed (st : state) (now sid : string) (ok : bool) (data : obj) :
  currentAnalysisId (glob st) = Some sid → sid ≠ "" →
  truthy (prop "success" data) = true →
  truthy (prop "completed" data) = true →
  toFixed_throws (prop "percentage" data) st = false →
  let st' := pollProgress now (Json ok data) st in
  currentAnalysisId (glob st') = None
  ∧ isAnalysisRunning (glob st') = false
  ∧ autoSaveInterval (glob st') = None
  ∧ timers (env st') = from_option (λ h, delete h (timers (env st))) (timers (env st))
                         (autoSaveInterval (glob st))
  ∧ savedSessions (glob st')
    = <[sid := <["progress" := js_or (prop "percentage" data) (JNum 0)]>
                 (<["lastSaved" := JStr now]> (poll_snapshot (getFormData st) data))]>
        (savedSessions (glob st)).
Proof.
  intros Hcur Hsid Hs Hc Hfix st'. subst st'.
  unfold pollProgress. rewrite Hcur, (proj2 (String.eqb_neq _ _) Hsid), Hs.
  replace (toFixed_throws _ _) with false. rewrite Hc.
  assert (prop "progress" (poll_snapshot (getFormData st) data) = prop "percentage" data)
    as Hp.
  { unfold poll_snapshot. rewrite !prop_insert_ne by done. apply prop_insert_eq. }
  match goal with |- context [stopAutoSave ?s] =>
    destruct (stopAutoSave_frame s) as (Ha & _ & _ & _ & _ & _ & Hd);
    assert (autoSaveInterval (glob (stopAutoSave s)) = None) as He
      by (unfold stopAutoSave; by destruct (autoSaveInterval (glob s)) eqn:E)
  end.
  simpl in *. rewrite Ha, Hd, He. repeat split; try done.
  change (getFormData _) with (getFormData st). by rewrite Hp.
Qed.

(** X15. Completion ends the poll chain for good: the tick that reports it,
    once its percentage has been displayed without a throw, stops the
    autosave, clears the running flag and the current analysis, and arms
    no timer, and any later run of [pollProgress] (a stale timeout, say)
    changes nothing and sends nothing. *)
Theorem pollProgress_completion_is_final (st : state) (now now' sid : string) (ok : bool)
    (data : obj) (r' : reply) :
  currentAnalysisId (glob st) = Some sid → sid ≠ "" →
  truthy (prop "success" data) = true →
  truthy (prop "completed" data) = true →
  toFixed_throws (prop "percentage" data) st = false →
  let st' := pollProgress now (Json ok data) st in
  pollProgress now' r' st' = st'
  ∧ isAnalysisRunning (glob st') = false
  ∧ autoSaveInterval (glob st') = None
  ∧ timers (env st') ⊆ timers (env st)
  ∧ ∃ snapshot, savedSessions (glob st') !! sid = Some snapshot
                ∧ prop "status" snapshot = JStr "completed".
Proof.
  intros Hcur Hsid Hs Hc Hfix st'.
  destruct (pollProgress_completed st now sid ok data Hcur Hsid Hs Hc Hfix)
    as (Hnone & Hrun & Hauto & Ht & Hsaved).
  fold st' in Hnone, Hrun, Hauto, Ht, Hsaved.
  split; [| split; [done | split; [done | split]]].
  - unfold pollProgress. by rewrite Hnone.
  - rewrite Ht. destruct (autoSaveInterval (glob st)); simpl; [apply delete_subseteq | done].
  - rewrite Hsaved, lookup_insert_eq. eexists. split; [reflexivity |].
    rewrite !prop_insert_ne by done. unfold poll_snapshot.
    rewrite !prop_insert_ne by done. by rewrite prop_insert_eq, Hc.
Qed.

Lemma pollProgress_completion_is_final_witness :
  let st' := pollProgress "2025-01-01T10:00:06.000Z" completed_reply polling_page in
  pollProgress "2025-01-01T10:00:09.000Z" (FetchRejects "Failed to fetch") st' = st'
  ∧ isAnalysisRunning (glob st') = false.
Proof.
  intros st'.
  assert ("s1" ≠ "") as Hsid by discriminate.
  assert (truthy (prop "success" ({[ "success" := JBool true; "percentage" := JNum 100;
            "completed" := JBool true;
            "results" := JObj {[ "report" := JStr "ok" ]} ]} : obj)) = true) as Hs
    by (by vm_compute).
  assert (truthy (prop "completed" ({[ "success" := JBool true; "percentage" := JNum 100;
            "completed" := JBool true;
            "results" := JObj {[ "report" := JStr "ok" ]} ]} : obj)) = true) as Hc
    by (by vm_compute).
  assert (toFixed_throws (prop "percentage" ({[ "success" := JBool true;
            "percentage" := JNum 100; "completed" := JBool true;
            "results" := JObj {[ "report" := JStr "ok" ]} ]} : obj)) polling_page = false)
    as Hfix by (by vm_compute).
  destruct (pollProgress_completion_is_final polling_page "2025-01-01T10:00:06.000Z"
              "2025-01-01T10:00:09.000Z" "s1" true _ (FetchRejects "Failed to fetch")
              eq_refl Hsid Hs Hc Hfix) as (Hinert & Hrun & _).
  split; [exact Hinert | exact Hrun].
Defined.

(** X16. A completed poll feeds the cache that [continueAnalysis] reads: when
    the completing reply reports 100 percent and non-empty results,
    continuing that session afterwards shows those results and makes no
    network call. *)
Theorem completed_poll_then_continue (st : state) (now now' sid : string) (ok : bool)
    (data : obj) (r r_poll : reply) :
  currentAnalysisId (glob st) = Some sid → sid ≠ "" →
  truthy (prop "success" data) = true →
  truthy (prop "completed" data) = true →
  prop "percentage" data = JNum 100 →
  truthy (prop "results" data) = true →
  let st1 := pollProgress now (Json ok data) st in
  let st2 := continueAnalysis now' sid r r_poll st1 in
  new_events st1 st2
  = [ConsoleLog "🔄 Continuando análise: "; ShowResults (prop "results" data)]
  ∧ network_calls (new_events st1 st2) = []
  ∧ timers (env st2) = timers (env st1).
Proof.
  intros Hcur Hsid Hs Hc Hp Hres st1 st2.
  assert (toFixed_throws (prop "percentage" data) st = false) as Hfix.
  { unfold toFixed_throws. rewrite Hp. apply andb_false_r. }
  destruct (pollProgress_completed st now sid ok data Hcur Hsid Hs Hc Hfix)
    as (_ & _ & _ & _ & Hsaved).
  fold st1 in Hsaved.
  set (snapshot := <["progress" := js_or (prop "percentage" data) (JNum 0)]>
                     (<["lastSaved" := JStr now]> (poll_snapshot (getFormData st) data)))
    in Hsaved.
  assert (prop "progress" snapshot = JNum 100) as Hprog.
  { unfold snapshot. by rewrite prop_insert_eq, Hp. }
  assert (prop "results" snapshot = prop "results" data) as Hr.
  { unfold snapshot, poll_snapshot. rewrite !prop_insert_ne by done. apply prop_insert_eq. }
  assert (new_events st1 st2
          = [ConsoleLog "🔄 Continuando análise: "; ShowResults (prop "results" data)]
          ∧ timers (env st2) = timers (env st1)) as [Hev Ht].
  { subst st2. unfold continueAnalysis.
    replace (getSession sid _) with (Some snapshot)
      by (unfold getSession; simpl; by rewrite Hsaved, lookup_insert_eq).
    rewrite Hprog, Hr, Hres. simpl. split; [| done].
    apply new_events_app. simpl. by rewrite <- app_assoc. }
  by rewrite Hev.
Qed.

Lemma completed_poll_then_continue_witness :
  let st1 := pollProgress "2025-01-01T10:00:06.000Z" completed_reply polling_page in
  network_calls (new_events st1 (continueAnalysis "2025-01-02T09:00:00.000Z" "s1"
                                   (FetchRejects "offline") (FetchRejects "offline") st1))
  = [].
Proof.
  intros st1.
  assert ("s1" ≠ "") as Hsid by discriminate.
  assert (truthy (prop "success" ({[ "success" := JBool true; "percentage" := JNum 100;
            "completed" := JBool true;
            "results" := JObj {[ "report" := JStr "ok" ]} ]} : obj)) = true) as Hs
    by (by vm_compute).
  assert (truthy (prop "completed" ({[ "success" := JBool true; "percentage" := JNum 100;
            "completed" := JBool true;
            "results" := JObj {[ "report" := JStr "ok" ]} ]} : obj)) = true) as Hc
    by (by vm_compute).
  assert (prop "percentage" ({[ "success" := JBool true; "percentage" := JNum 100;
            "completed" := JBool true;
            "results" := JObj {[ "report" := JStr "ok" ]} ]} : obj) = JNum 100) as Hp
    by (by vm_compute).
  assert (truthy (prop "results" ({[ "success" := JBool true; "percentage" := JNum 100;
            "completed" := JBool true;
            "results" := JObj {[ "report" := JStr "ok" ]} ]} : obj)) = true) as Hres
    by (by vm_compute).
  exact (proj1 (proj2 (completed_poll_then_continue polling_page "2025-01-01T10:00:06.000Z"
           "2025-01-02T09:00:00.000Z" "s1" true _ (FetchRejects "offline")
           (FetchRejects "offline") eq_refl Hsid Hs Hc Hp Hres))).
Defined.

(** X17. Results that only the server has are shown but not cached: when the
    status request of [continueAnalysis] answers completed, the local store
    is left as it was, so continuing the same session again contacts the
    gateway again. *)
Theorem continue_uncached_asks_again (st : state) (now now' sid : string) (ok : bool)
    (data sessionData : obj) (r_poll r' r_poll' : reply) :
  getSession sid st = Some sessionData →
  is_num 100 (prop "progress" sessionData) && truthy (prop "results" sessionData) = false →
  truthy (prop "success" data) = true →
  prop "status" data = JStr "completed" →
  let st1 := continueAnalysis now sid (Json ok data) r_poll st in
  let st2 := continueAnalysis now' sid r' r_poll' st1 in
  savedSessions (glob st1) = savedSessions (glob st)
  ∧ ls_analyses (env st1) = ls_analyses (env st)
  ∧ new_events st st1
    = [ConsoleLog "🔄 Continuando análise: ";
       Fetch GET ("/api/analysis_status/" +:+ sid);
       ShowResults (prop "results" data)]
  ∧ network_calls (new_events st1 st2) !! 0%nat
    = Some (Fetch GET ("/api/analysis_status/" +:+ sid)).
Proof.
  intros Hget Hmiss Hs Hst st1 st2.
  assert (savedSessions (glob st1) = savedSessions (glob st)
          ∧ ls_analyses (env st1) = ls_analyses (env st)
          ∧ trace (env st1) = trace (env st)
              ++ [ConsoleLog "🔄 Continuando análise: ";
                  Fetch GET ("/api/analysis_status/" +:+ sid);
                  ShowResults (prop "results" data)]) as (Hsaved & Hls & Htr).
  { subst st1. unfold continueAnalysis.
    replace (getSession sid _) with (Some sessionData) by (by rewrite <- Hget).
    rewrite Hmiss. unfold checkAnalysisStatus. rewrite Hs, Hst. simpl.
    match goal with |- context [stopAutoSave ?s] =>
      destruct (stopAutoSave_frame s) as (-> & _ & _ & _ & -> & -> & _) end.
    simpl. by rewrite <- !app_assoc. }
  split; [done |]. split; [done |]. split; [by apply new_events_app |].
  subst st2. unfold continueAnalysis.
  replace (getSession sid _) with (Some sessionData)
    by (unfold getSession in *; simpl; by rewrite Hsaved).
  rewrite Hmiss.
  match goal with |- context [checkAnalysisStatus ?n ?i ?a ?b ?s] =>
    destruct (checkAnalysisStatus_trace n i a b s) as [es Hes];
    rewrite (new_events_app st1 _ (ConsoleLog "🔄 Continuando análise: "
               :: Fetch GET ("/api/analysis_status/" +:+ sid) :: es))
  end; [reflexivity |].
  rewrite Hes. simpl. by rewrite <- app_assoc.
Qed.

Lemma continue_uncached_asks_again_witness :
  let data : obj := {[ "success" := JBool true; "status" := JStr "completed";
                       "results" := JStr "<p>ok</p>" ]} in
  let st1 := continueAnalysis "2025-01-02T09:00:00.000Z" "s1" (Json true data)
               (FetchRejects "offline") polling_page in
  savedSessions (glob st1) = savedSessions (glob polling_page)
  ∧ network_calls (new_events st1 (continueAnalysis "2025-01-02T09:01:00.000Z" "s1"
                                     (Json true data) (FetchRejects "offline") st1)) !! 0%nat
    = Some (Fetch GET "/api/analysis_status/s1").
Proof.
  intros data st1.
  assert (truthy (prop "success" data) = true) as Hs by (by vm_compute).
  assert (prop "status" data = JStr "completed") as Hst by (by vm_compute).
  assert (∃ sessionData, getSession "s1" polling_page = Some sessionData
            ∧ is_num 100 (prop "progress" sessionData)
              && truthy (prop "results" sessionData) = false) as (sd & Hget & Hmiss).
  { eexists. split; [reflexivity | by vm_compute]. }
  destruct (continue_uncached_asks_again polling_page "2025-01-02T09:00:00.000Z"
              "2025-01-02T09:01:00.000Z" "s1" true data sd (FetchRejects "offline")
              (Json true data) (FetchRejects "offline") Hget Hmiss Hs Hst)
    as (Hsaved & _ & _ & Hagain).
  split; [exact Hsaved | exact Hagain].
Defined.

(** X18. When [pollProgress] schedules its next run. With a current analysis,
    a tick arms one timeout, and nothing else, exactly when its reply
    reports success without completion and the analysis counts as
    running; in every other case it arms nothing, so polling has ended. *)
Theorem pollProgress_schedules (st : state) (now sid : string) (r : reply) :
  currentAnalysisId (glob st) = Some sid → sid ≠ "" →
  let st' := pollProgress now r st in
  (poll_continues r st = true →
     timers (env st') = <[next_handle (env st) := PollTimeout]> (timers (env st)))
  ∧ (poll_continues r st = false → timers (env st') ⊆ timers (env st)).
Proof.
  intros Hcur Hsid st'. subst st'.
  unfold pollProgress, poll_continues.
  rewrite Hcur, (proj2 (String.eqb_neq _ _) Hsid).
  assert (∀ detail mid, timers (env mid) = timers (env st) →
            autoSaveInterval (glob mid) = autoSaveInterval (glob st) →
            timers (env (pollProgress_catch detail mid)) ⊆ timers (env st)) as Hcatch.
  { intros detail mid Ht Ha. unfold pollProgress_catch.
    match goal with |- context [stopAutoSave ?s] =>
      destruct (stopAutoSave_frame s) as (_ & _ & _ & _ & _ & _ & Htm) end.
    simpl in *. rewrite Htm, Ht, Ha.
    destruct (autoSaveInterval (glob st)); simpl; [apply delete_subseteq | done]. }
  destruct r as [m | ok m | ok data]; try (split; [discriminate | intros _; by apply Hcatch]).
  destruct (truthy (prop "success" data)); simpl;
    [| split; [discriminate | intros _; by apply Hcatch]].
  change (toFixed_throws (prop "percentage" data) (emit _ (emit _ st)))
    with (toFixed_throws (prop "percentage" data) st).
  destruct (toFixed_throws (prop "percentage" data) st); simpl;
    [split; [discriminate | intros _; by apply Hcatch] |].
  destruct (truthy (prop "completed" data)); simpl.
  - split; [discriminate | intros _].
    match goal with |- context [stopAutoSave ?s] =>
      destruct (stopAutoSave_frame s) as (_ & _ & _ & _ & _ & _ & Htm) end.
    simpl in *. rewrite Htm.
    destruct (autoSaveInterval (glob st)); simpl; [apply delete_subseteq | done].
  - destruct (isAnalysisRunning (glob st)); simpl; split; done.
Qed.

Lemma pollProgress_schedules_witness :
  timers (env (pollProgress "2025-01-01T10:00:03.000Z" (Json true progress_data)
                 (clearInterval 1 polling_page)))
  = {[ 2%positive := PollTimeout ]}
  ∧ timers (env (pollProgress "2025-01-01T10:00:03.000Z" (failure_reply "gone")
                   (clearInterval 1 polling_page)))
    ⊆ timers (env (clearInterval 1 polling_page)).
Proof.
  assert ("s1" ≠ "") as Hsid by discriminate.
  assert (poll_continues (Json true progress_data) (clearInterval 1 polling_page) = true)
    as Hgo by (by vm_compute).
  assert (poll_continues (failure_reply "gone") (clearInterval 1 polling_page) = false)
    as Hstop by (by vm_compute).
  split.
  - exact (proj1 (pollProgress_schedules (clearInterval 1 polling_page)
                    "2025-01-01T10:00:03.000Z" "s1" (Json true progress_data)
                    eq_refl Hsid) Hgo).
  - exact (proj2 (pollProgress_schedules (clearInterval 1 polling_page)
                    "2025-01-01T10:00:03.000Z" "s1" (failure_reply "gone")
                    eq_refl Hsid) Hstop).
Defined.

End PollingFacts.

(** * Properties of the session manager *)

Section SessionManagerFacts.
Import StepGate SessionManager.

Lemma update_button_lookup (cs : list jsval) (step k : Z) (st : state) :
  step_buttons (update_button cs step st) !! k
  = if decide (k = step) then
      (λ _, {| disabled := negb (canContinueFromStep (JNum step) cs);
               label := Some (if includes step cs then Completed
                              else if canContinueFromStep (JNum step) cs then Available
                              else Locked) |}) <$> step_buttons st !! k
    else step_buttons st !! k.
Proof.
  unfold update_button. case_decide as Hk.
  - subst k. destruct (step_buttons st !! step) eqn:E; simpl; [| by rewrite E].
    by rewrite lookup_insert_eq.
  - destruct (step_buttons st !! step); simpl; [| done]. by rewrite lookup_insert_ne.
Qed.

Lemma update_buttons_lookup (cs : list jsval) (k : Z) (st : state) :
  step_buttons (update_buttons cs st) !! k
  = if decide (1 ≤ k ≤ 3) then
      (λ _, {| disabled := negb (canContinueFromStep (JNum k) cs);
               label := Some (if includes k cs then Completed
                              else if canContinueFromStep (JNum k) cs then Available
                              else Locked) |}) <$> step_buttons st !! k
    else step_buttons st !! k.
Proof.
  unfold update_buttons. rewrite !update_button_lookup.
  repeat case_decide; subst; try lia; try done.
  all: by destruct (step_buttons st !! _).
Qed.

Lemma update_buttons_frame (cs : list jsval) (st : state) :
  selectedSessionId (update_buttons cs st) = selectedSessionId st
  ∧ selectedStep (update_buttons cs st) = selectedStep st
  ∧ trace (update_buttons cs st) = trace st
  ∧ continueBtn_disabled (update_buttons cs st) = continueBtn_disabled st.
Proof.
  unfold update_buttons, update_button.
  repeat (match goal with |- context [step_buttons ?s !! ?k] =>
            destruct (step_buttons s !! k) end; simpl); done.
Qed.

(** X19. What [updateStepSelector] leaves on the page. Each of the buttons 1 to 3
    that exists is enabled exactly when the gate lets its step through,
    and no other button changes; so the enabled steps are closed
    downwards (step 3 open means step 2 open, step 2 open means step 1
    open), and step 1 is always open. A step that is recorded complete
    while an earlier one is not is labelled complete and stays locked. *)
Theorem update_buttons_gate (cs : list jsval) (st : state) (k : Z) (btn : button) :
  step_buttons (update_buttons cs st) !! k = Some btn →
  (1 ≤ k ≤ 3 → disabled btn = negb (canContinueFromStep (JNum k) cs))
  ∧ (¬ (1 ≤ k ≤ 3) → step_buttons st !! k = Some btn)
  ∧ (k = 1 → disabled btn = false)
  ∧ (∀ j btn', 1 ≤ j ≤ k ≤ 3 → disabled btn = false →
       step_buttons (update_buttons cs st) !! j = Some btn' → disabled btn' = false)
  ∧ (1 ≤ k ≤ 3 → includes k cs = true → label btn = Some Completed).
Proof.
  intros Hbtn. rewrite update_buttons_lookup in Hbtn.
  case_decide as Hk.
  - destruct (step_buttons st !! k); [| done]. simpl in Hbtn. injection Hbtn as <-. simpl.
    split; [done |]. split; [lia |]. split; [by intros -> |]. split.
    + intros j btn' Hj Hopen Hj'. rewrite update_buttons_lookup in Hj'.
      case_decide; [| lia]. destruct (step_buttons st !! j); [| done].
      simpl in Hj'. injection Hj' as <-. simpl.
      apply negb_false_iff in Hopen. apply negb_false_iff.
      assert (k = 1 ∨ k = 2 ∨ k = 3) as [-> | [-> | ->]] by lia;
        assert (j = 1 ∨ j = 2 ∨ j = 3) as [-> | [-> | ->]] by lia; try lia; try done.
      unfold canContinueFromStep in *. simpl in *.
      by apply andb_true_iff in Hopen as [? _].
    + intros _ ->. done.
  - split; [lia |]. split; [done |]. split; [lia |]. split; [| lia]. intros; lia.
Qed.

Lemma update_buttons_gate_witness :
  ∃ btn, step_buttons (update_buttons [JNum 2] initial_page) !! 2 = Some btn
         ∧ disabled btn = true ∧ label btn = Some Completed.
Proof.
  assert (step_buttons (update_buttons [JNum 2] initial_page) !! 2
          = Some {| disabled := true; label := Some Completed |}) as Hbtn by (by vm_compute).
  destruct (update_buttons_gate [JNum 2] initial_page 2 _ Hbtn) as (Hdis & _ & _ & _ & Hlab).
  eexists. split; [exact Hbtn |]. split.
  - exact (Hdis ltac:(lia)).
  - exact (Hlab ltac:(lia) eq_refl).
Defined.

Lemma loadSavedSessions_frame_manager (r : Analysis.reply) (st : state) :
  let st' := loadSavedSessions r st in
  selectedSessionId st' = selectedSessionId st
  ∧ selectedStep st' = selectedStep st
  ∧ currentSessionId st' = currentSessionId st
  ∧ step_buttons st' = step_buttons st
  ∧ continueBtn_disabled st' = continueBtn_disabled st.
Proof.
  unfold loadSavedSessions. destruct r as [m | ok m | ok result]; simpl; try done.
  destruct (truthy (prop "success" result)); simpl; [| done].
  by destruct (displaySavedSessions (prop "sessions" result)).
Qed.

(** X20. The gate is what decides a selection. After [selectSession] has read a
    session whose data name a string id and an array of completed steps,
    [selectStep k], for a step button 1 to 3 of the page, records the step
    and enables the continue button exactly when [canContinueFromStep]
    accepts [k] for those completed steps; otherwise it records nothing.
    This holds also when the session is missing from the list shown. *)
Theorem selectStep_follows_gate (st : state) (sid id : string) (ok item_listed : bool)
    (result data : obj) (cs : list jsval) (k : Z) :
  sid ≠ "" →
  truthy (prop "success" result) = true →
  prop "session_data" result = JObj data →
  prop "session_id" data = JStr id →
  completed_steps_of (JObj data) = Some (JArr cs) →
  1 ≤ k ≤ 3 → is_Some (step_buttons st !! k) →
  let st1 := selectSession sid (Analysis.Json ok result) item_listed st in
  let st2 := selectStep k st1 in
  selectedSessionId st1 = Some sid
  ∧ selectedStep st2
    = (if canContinueFromStep (JNum k) cs then Some k else selectedStep st)
  ∧ continueBtn_disabled st2
    = (if canContinueFromStep (JNum k) cs then false else continueBtn_disabled st).
Proof.
  intros Hsid Hs Hd Hid Hcs Hk [b Hb] st1 st2.
  assert (selectedSessionId st1 = Some sid ∧ selectedStep st1 = selectedStep st
          ∧ continueBtn_disabled st1 = continueBtn_disabled st
          ∧ step_buttons st1 !! k
            = Some {| disabled := negb (canContinueFromStep (JNum k) cs);
                      label := Some (if includes k cs then Completed
                                     else if canContinueFromStep (JNum k) cs then Available
                                     else Locked) |}) as (Hsel & Hstep & Hcont & Hbtn).
  { subst st1 st2. unfold selectSession. rewrite Hs, Hd.
    unfold updateSelectedSessionInfo, updateStepSelector. rewrite Hcs. simpl. rewrite Hid.
    match goal with |- context [update_buttons cs ?s] =>
      destruct (update_buttons_frame cs s) as (Ha & Hb' & _ & Hc);
      pose proof (update_buttons_lookup cs k s) as Hl
    end.
    rewrite decide_True in Hl by done. simpl in Hl. rewrite Hb in Hl. simpl in Hl.
    destruct item_listed; simpl; by rewrite Ha, Hb', Hc, Hl. }
  split; [done |]. subst st2. unfold selectStep.
  rewrite Hsel, (id_truthy_Some _ Hsid).
  rewrite Hbtn. simpl.
  destruct (canContinueFromStep (JNum k) cs); simpl; by rewrite ?Hstep, ?Hcont.
Qed.

Lemma selectStep_follows_gate_witness :
  let st1 := selectSession "abc" (load_reply "abc" [JNum 1]) true initial_page in
  selectedStep (selectStep 2 st1) = Some 2
  ∧ selectedStep (selectStep 3 st1) = None.
Proof.
  intros st1.
  assert ("abc" ≠ "") as Hsid by discriminate.
  pose (data := ({[ "session_id" := JStr "abc";
                    "metadata" := JObj {[ "completed_steps" := JArr [JNum 1] ]} ]} : obj)).
  pose (result := ({[ "success" := JBool true; "session_data" := JObj data ]} : obj)).
  assert (truthy (prop "success" result) = true) as Hs by (by vm_compute).
  assert (prop "session_data" result = JObj data) as Hd by (by vm_compute).
  assert (prop "session_id" data = JStr "abc") as Hid by (by vm_compute).
  assert (completed_steps_of (JObj data) = Some (JArr [JNum 1])) as Hcs by (by vm_compute).
  assert (is_Some (step_buttons initial_page !! 2)) as H2 by (by eexists).
  assert (is_Some (step_buttons initial_page !! 3)) as H3 by (by eexists).
  split.
  - exact (proj1 (proj2 (selectStep_follows_gate initial_page "abc" "abc" true true
             result data [JNum 1] 2 Hsid Hs Hd Hid Hcs ltac:(lia) H2))).
  - exact (proj1 (proj2 (selectStep_follows_gate initial_page "abc" "abc" true true
             result data [JNum 1] 3 Hsid Hs Hd Hid Hcs ltac:(lia) H3))).
Defined.

(** X21. [startNewSession] locks the page: no session is selected, every step
    button and the continue button are disabled, and [selectStep] then
    refuses every step with a warning. The step chosen earlier is not
    reset; it stays recorded. *)
Theorem startNewSession_locks (st : state) (k : Z) :
  let st1 := startNewSession st in
  selectedSessionId st1 = None
  ∧ currentSessionId st1 = None
  ∧ continueBtn_disabled st1 = true
  ∧ (∀ j btn, step_buttons st1 !! j = Some btn → disabled btn = true)
  ∧ dom (step_buttons st1) = dom (step_buttons st)
  ∧ selectedStep st1 = selectedStep st
  ∧ selectedStep (selectStep k st1) = selectedStep st
  ∧ last (trace (selectStep k st1))
    = Some (Notice "Selecione uma sessão primeiro" None Analysis.Warning).
Proof.
  intros st1. subst st1. unfold startNewSession, selectStep. simpl.
  repeat split; try done.
  - intros j btn. rewrite lookup_fmap. destruct (step_buttons st !! j); [| done].
    simpl. by intros [= <-].
  - by rewrite dom_fmap_L.
  - by rewrite last_snoc.
Qed.

(** X22. [selectSession] records the session before it asks for it and does not
    take that back: when the load fails, the session stays selected, the
    step buttons, the chosen step and the continue button are those of
    before, and the user is told of the error once. *)
Theorem selectSession_failure_keeps_selection (st : state) (sid : string)
    (r : Analysis.reply) (item_listed : bool) :
  Analysis.succeeds r = false →
  let st' := selectSession sid r item_listed st in
  selectedSessionId st' = Some sid
  ∧ step_buttons st' = step_buttons st
  ∧ selectedStep st' = selectedStep st
  ∧ continueBtn_disabled st' = continueBtn_disabled st
  ∧ ∃ c, trace st'
         = trace st ++ [Fetch Analysis.GET ("/api/sessions/load/" +:+ sid);
                        ConsoleError "Erro ao selecionar sessão:";
                        ErrorNotice "Erro ao selecionar sessão: " c].
Proof.
  intros Hr st'. subst st'. unfold selectSession, Analysis.succeeds in *.
  destruct r as [m | ok m | ok result]; [| | rewrite Hr];
    simpl; repeat (split; [done |]); eexists; by rewrite <- !app_assoc.
Qed.

Lemma selectSession_failure_keeps_selection_witness :
  let st1 := selectSession "abc" (load_reply "abc" [JNum 1; JNum 2]) true initial_page in
  let st2 := selectSession "xyz" (Analysis.FetchRejects "Failed to fetch") true st1 in
  selectedSessionId st2 = Some "xyz" ∧ step_buttons st2 = step_buttons st1.
Proof.
  intros st1 st2.
  destruct (selectSession_failure_keeps_selection st1 "xyz"
              (Analysis.FetchRejects "Failed to fetch") true eq_refl) as (Hsel & Hbtn & _).
  split; [exact Hsel | exact Hbtn].
Defined.

(** X23. Deleting a session in the manager. When the gateway reports success
    the selection is dropped exactly if the deleted session was the
    selected one (the page is then locked as by [startNewSession]); another
    selection and its step buttons are kept. When the gateway does not
    report success nothing of the selection or the page changes, and
    without confirmation nothing happens. *)
Theorem deleteSession_selection (st : state) (sid : string) (r r_list : Analysis.reply) :
  let st' := deleteSession sid true r r_list st in
  (Analysis.succeeds r = true → selectedSessionId st = Some sid →
     selectedSessionId st' = None
     ∧ continueBtn_disabled st' = true
     ∧ ∀ j btn, step_buttons st' !! j = Some btn → disabled btn = true)
  ∧ (Analysis.succeeds r = true → selectedSessionId st ≠ Some sid →
     selectedSessionId st' = selectedSessionId st
     ∧ step_buttons st' = step_buttons st
     ∧ continueBtn_disabled st' = continueBtn_disabled st)
  ∧ (Analysis.succeeds r = false →
     selectedSessionId st' = selectedSessionId st
     ∧ step_buttons st' = step_buttons st
     ∧ continueBtn_disabled st' = continueBtn_disabled st
     ∧ availableSessions st' = availableSessions st)
  ∧ selectedStep st' = selectedStep st
  ∧ deleteSession sid false r r_list st = st.
Proof.
  intros st'. subst st'. unfold deleteSession, Analysis.succeeds.
  destruct r as [m | ok m | ok result]; simpl;
    try (split; [discriminate |]; split; [discriminate |]; by repeat split).
  destruct (truthy (prop "success" result)); simpl;
    [| split; [discriminate |]; split; [discriminate |]; by repeat split].
  match goal with |- context [loadSavedSessions r_list ?s] =>
    destruct (loadSavedSessions_frame_manager r_list s) as (Ha & Hb & _ & Hc & Hd) end.
  rewrite Ha, Hb, Hc, Hd. simpl.
  case_decide as Hsel; simpl; repeat split; try done; try congruence.
  intros j btn. rewrite lookup_fmap. destruct (step_buttons st !! j); [| done].
  simpl. by intros [= <-].
Qed.

Lemma deleteSession_selection_witness :
  let st1 := selectSession "abc" (load_reply "abc" [JNum 1; JNum 2]) true initial_page in
  selectedSessionId
    (deleteSession "abc" true Scenario.success_reply (Analysis.FetchRejects "offline") st1)
  = None
  ∧ selectedSessionId
      (deleteSession "xyz" true Scenario.success_reply (Analysis.FetchRejects "offline") st1)
    = Some "abc"
  ∧ selectedSessionId
      (deleteSession "abc" true (Scenario.failure_reply "locked")
         (Analysis.FetchRejects "offline") st1)
    = Some "abc".
Proof.
  intros st1.
  assert (selectedSessionId st1 = Some "abc") as Hsel by reflexivity.
  assert (selectedSessionId st1 ≠ Some "xyz") as Hother by discriminate.
  split; [| split].
  - exact (proj1 (proj1 (deleteSession_selection st1 "abc" Scenario.success_reply
                           (Analysis.FetchRejects "offline")) eq_refl Hsel)).
  - rewrite (proj1 (proj1 (proj2 (deleteSession_selection st1 "xyz" Scenario.success_reply
                                    (Analysis.FetchRejects "offline"))) eq_refl Hother)).
    exact Hsel.
  - rewrite (proj1 (proj1 (proj2 (proj2 (deleteSession_selection st1 "abc"
               (Scenario.failure_reply "locked") (Analysis.FetchRejects "offline"))))
               eq_refl)).
    exact Hsel.
Defined.

(** X24. The list of saved sessions is shown whole or not at all: the sessions
    received are stored in [availableSessions] in any case, but if one of
    them cannot be rendered the page shows the empty list. *)
Theorem loadSavedSessions_all_or_nothing (st : state) (ok : bool) (result : obj)
    (l : list jsval) :
  truthy (prop "success" result) = true →
  prop "sessions" result = JArr l →
  let st' := loadSavedSessions (Analysis.Json ok result) st in
  availableSessions st' = JArr l
  ∧ last (trace st')
    = Some (DisplaySavedSessions (if forallb item_renders l then l else [])).
Proof.
  intros Hs Hl st'. subst st'. unfold loadSavedSessions. rewrite Hs, Hl.
  unfold displaySavedSessions. simpl.
  destruct (forallb item_renders l); simpl; (split; [done |]);
    by rewrite ?app_assoc, last_snoc.
Qed.

Lemma loadSavedSessions_all_or_nothing_witness :
  let good := JObj {[ "session_id" := JStr "abc"; "status" := JStr "completed" ]} in
  let bad := JObj {[ "session_id" := JNum 7 ]} in
  last (trace (loadSavedSessions
                 (Analysis.Json true {[ "success" := JBool true;
                                        "sessions" := JArr [good; bad] ]}) initial_page))
  = Some (DisplaySavedSessions []).
Proof.
  intros good bad.
  pose (result := ({[ "success" := JBool true; "sessions" := JArr [good; bad] ]} : obj)).
  assert (truthy (prop "success" result) = true) as Hs by (by vm_compute).
  assert (prop "sessions" result = JArr [good; bad]) as Hl by (by vm_compute).
  etrans; [exact (proj2 (loadSavedSessions_all_or_nothing initial_page true result
                           [good; bad] Hs Hl)) |].
  by vm_compute.
Defined.

End SessionManagerFacts.
